(** * Jovimetrix front-end extensions: the queue node and the menu converter

    A shallow embedding of [queue.js] (the extension registered for the node
    type [_id]) and of [core_cozy_menu.js] (extension [jovimetrix.cozy.menu]),
    with the properties of their handlers.

    JavaScript objects owned by the host (nodes, widgets, menu arrays) are
    modelled as records; a reference to a widget of a node is its position in
    the node's widget array; a handler is a computation over the objects it
    can reach, which either completes normally or ends in a [TypeError], the
    only exception the handlers can raise (property access on [undefined]). *)

From Stdlib Require Import ZArith String Ascii Bool Lia DecimalString.
From stdpp Require Import base option list strings gmap.

Local Open Scope string_scope.
Local Open Scope Z_scope.

(** ** JavaScript values and helpers *)

(** The primitive values a widget can hold. *)
Inductive jsval : Type :=
  | JUndef
  | JNum (z : Z)
  | JStr (s : string)
  | JBool (b : bool).

Definition nl : string := String "010" EmptyString.

(** [Array.prototype.join('\n')] on an array of strings. *)
Definition join (sep : string) (l : list string) : string := String.concat sep l.

(** [String.prototype.split('\n')]: never returns an empty array. *)
Fixpoint split_nl (s : string) : list string :=
  match s with
  | EmptyString => [EmptyString]
  | String c r =>
      if Ascii.eqb c "010" then EmptyString :: split_nl r
      else match split_nl r with
           | h :: t => String c h :: t
           | [] => [String c EmptyString]
           end
  end.

(** [String.prototype.startsWith]. *)
Definition startsWith (p s : string) : bool := String.prefix p s.

(** [String.prototype.includes]. *)
Fixpoint includes (p s : string) : bool :=
  String.prefix p s ||
  match s with
  | EmptyString => false
  | String _ r => includes p r
  end.

(** Template-literal rendering of an integer and of an array length
    (integers of magnitude below 10^21 print positionally). *)
Definition string_of_Z (z : Z) : string := NilZero.string_of_int (Z.to_int z).
Definition string_of_nat (n : nat) : string := NilZero.string_of_uint (Nat.to_uint n).

Section LooseEquality.
(** ECMAScript [ToNumber] on strings, as far as integers are concerned:
    [None] stands for a string that does not denote an integer. *)
Variable ToNumber : string -> option Z.

(** The abstract equality [a == b] on primitive values. *)
Definition loose_eq (a b : jsval) : bool :=
  match a, b with
  | JUndef, JUndef => true
  | JUndef, _ | _, JUndef => false
  | JNum x, JNum y => x =? y
  | JStr x, JStr y => String.eqb x y
  | JBool x, JBool y => Bool.eqb x y
  | JNum x, JStr s | JStr s, JNum x =>
      match ToNumber s with Some y => x =? y | None => false end
  | JBool x, JNum y | JNum y, JBool x => Z.b2z x =? y
  | JBool x, JStr s | JStr s, JBool x =>
      match ToNumber s with Some y => Z.b2z x =? y | None => false end
  end.
End LooseEquality.

(** ** Host objects *)

Record WidgetOptions : Type := {
  values : option (list string);
  forceInput : option bool;
  menu : option bool;
}.

Record Widget : Type := {
  w_name : string;
  w_type : string;
  w_origType : option string;
  w_value : jsval;
  w_options : option WidgetOptions;
  w_inputEl : bool;
  w_hidden : bool;
}.

(** A graph node.  [inputs], [widgets] are [None] when the property is
    [undefined]; [outputs] lists the names of the output sockets, and an
    empty list also stands for an absent array ([outputs[0].name] raises in
    both cases).  The [data_*] and [widget_*] properties are the ones
    [queue.js] keeps on its node; [widget_queue] and [widget_report] are
    references into [widgets]. *)
Record Node : Type := {
  id : Z;
  inputs : option (list string);
  outputs : list string;
  widgets : option (list Widget);
  data_index : Z;
  data_current : string;
  data_all : list string;
  data_count : option nat;
  widget_queue : option nat;
  widget_report : option nat;
}.

(** What a handler leaves behind for the host to observe. *)
Inductive Effect : Type :=
  | ApiCmd (node_id : Z) (cmd : string)
  | SetDirty
  | FitHeight
  | Flash (widget : nat)
  | Subscribe (event : string)
  | Defer (ms : nat).

(** ** Computations: state threaded through, ended by a [TypeError] or not *)

Inductive completion (A : Type) : Type :=
  | Normal (a : A)
  | TypeError.
Arguments Normal {A} a.
Arguments TypeError {A}.

Definition M (S A : Type) : Type := S -> completion A * S.

Definition ret {S A} (a : A) : M S A := fun s => (Normal a, s).
Definition throw {S A} : M S A := fun s => (TypeError, s).
Definition bind {S A B} (c : M S A) (k : A -> M S B) : M S B :=
  fun s => match c s with
           | (Normal a, s') => k a s'
           | (TypeError, s') => (TypeError, s')
           end.
Definition get {S} : M S S := fun s => (Normal s, s).
Definition modify {S} (f : S -> S) : M S unit := fun s => (Normal tt, f s).
(** Reading a property of a possibly [undefined] object. *)
Definition defined {S A} (o : option A) : M S A :=
  match o with Some a => ret a | None => throw end.

Notation "'let*' x ':=' c1 'in' c2" := (bind c1 (fun x => c2))
  (at level 10, x name, c1 at level 100, c2 at level 200).
Notation "c1 ;; c2" := (bind c1 (fun _ => c2))
  (at level 100, c2 at level 200, right associativity).

(** A computation leaves the observation [obs] of the state as it was,
    also when it raises. *)
Definition preserves {S A B} (obs : S -> B) (c : M S A) : Prop :=
  forall s, obs (snd (c s)) = obs s.

(** A computation keeps the property [P] of the state, also when it
    raises. *)
Definition stable {S A} (P : S -> Prop) (c : M S A) : Prop :=
  forall s, P s -> P (snd (c s)).

(** ** queue.js *)

Module Queue.

Definition _id : string := "QUEUE (JOV) 🗃".
Definition _prefix : string := "🦄".
Definition EVENT_JOVI_PING : string := "jovi-queue-ping".
Definition EVENT_JOVI_DONE : string := "jovi-queue-done".

(** [util.js] is not part of the sources at hand; its two enumerations are
    taken as such. *)
Inductive TypeSlot : Type := Input | Output.
Inductive TypeSlotEvent : Type := Connect | Disconnect.

(** The queue node [self], the other nodes of [app.graph], and the effects
    observed so far (most recent last). *)
Record World : Type := {
  self : Node;
  others : gmap Z Node;
  log : list Effect;
}.

Definition with_self (f : Node -> Node) (w : World) : World :=
  {| self := f (self w); others := others w; log := log w |}.
Definition emit (e : Effect) : M World unit :=
  modify (fun w => {| self := self w; others := others w;
                      log := (log w ++ [e])%list |}).

Definition set_data (i : Z) (c : string) (l : list string) (n : Node) : Node :=
  {| id := id n; inputs := inputs n; outputs := outputs n; widgets := widgets n;
     data_index := i; data_current := c; data_all := l;
     data_count := data_count n;
     widget_queue := widget_queue n; widget_report := widget_report n |}.
Definition set_data_count (k : nat) (n : Node) : Node :=
  {| id := id n; inputs := inputs n; outputs := outputs n; widgets := widgets n;
     data_index := data_index n; data_current := data_current n;
     data_all := data_all n; data_count := Some k;
     widget_queue := widget_queue n; widget_report := widget_report n |}.
Definition set_outputs (o : list string) (n : Node) : Node :=
  {| id := id n; inputs := inputs n; outputs := o; widgets := widgets n;
     data_index := data_index n; data_current := data_current n;
     data_all := data_all n; data_count := data_count n;
     widget_queue := widget_queue n; widget_report := widget_report n |}.
Definition set_widgets (ws : option (list Widget)) (n : Node) : Node :=
  {| id := id n; inputs := inputs n; outputs := outputs n; widgets := ws;
     data_index := data_index n; data_current := data_current n;
     data_all := data_all n; data_count := data_count n;
     widget_queue := widget_queue n; widget_report := widget_report n |}.
Definition set_widget_report (r : option nat) (n : Node) : Node :=
  {| id := id n; inputs := inputs n; outputs := outputs n; widgets := widgets n;
     data_index := data_index n; data_current := data_current n;
     data_all := data_all n; data_count := data_count n;
     widget_queue := widget_queue n; widget_report := r |}.

Definition set_w_value (v : jsval) (w : Widget) : Widget :=
  {| w_name := w_name w; w_type := w_type w; w_origType := w_origType w;
     w_value := v; w_options := w_options w; w_inputEl := w_inputEl w;
     w_hidden := w_hidden w |}.
Definition set_w_hidden (h : bool) (w : Widget) : Widget :=
  {| w_name := w_name w; w_type := w_type w; w_origType := w_origType w;
     w_value := w_value w; w_options := w_options w; w_inputEl := w_inputEl w;
     w_hidden := h |}.

(** [widgets.find(w => w.name === nm)], as the position of the first match. *)
Fixpoint find_widget (nm : string) (ws : list Widget) : option nat :=
  match ws with
  | [] => None
  | w :: r => if String.eqb (w_name w) nm then Some 0%nat
              else S <$> find_widget nm r
  end.

(** The widget a reference points to ([None]: the reference is [undefined]). *)
Definition deref (n : Node) (r : option nat) : option Widget :=
  match r, widgets n with
  | Some i, Some ws => ws !! i
  | _, _ => None
  end.

(** In-place update of the widget at position [i]. *)
Definition update_widget (i : nat) (f : Widget -> Widget) (n : Node) : Node :=
  set_widgets (alter f i <$> widgets n) n.

(** [r.value = v] for a widget reference [r]. *)
Definition assign_value (r : option nat) (v : jsval) : M World unit :=
  let* w := get in
  match r, deref (self w) r with
  | Some i, Some _ => modify (with_self (update_widget i (set_w_value v)))
  | _, _ => throw
  end.

(** [this.outputs[0].name = nm]. *)
Definition rename_output0 (nm : string) : M World unit :=
  let* w := get in
  match outputs (self w) with
  | [] => throw
  | _ :: r => modify (with_self (set_outputs (nm :: r)))
  end.

(** The text shown by the report widget. *)
Definition render (i : Z) (len : nat) (c : string) : string :=
  "[" +:+ string_of_Z i +:+ " / " +:+ string_of_nat len +:+ "]" +:+ nl +:+ c.

Definition update_report : M World unit :=
  let* w := get in
  let n := self w in
  assign_value (widget_report n)
    (JStr (render (data_index n) (length (data_all n)) (data_current n))) ;;
  emit SetDirty.

Definition update_list (value : list string) : M World unit :=
  modify (with_self (set_data_count (length value))) ;;
  modify (with_self (fun n => set_data 1 "" (data_all n) n)) ;;
  update_report ;;
  let* w := get in
  emit (ApiCmd (id (self w)) "reset").

(** The widgets [onNodeCreated] finds by name; its closures keep them. *)
Record Locals : Type := {
  l_widget_queue : option nat;
  l_widget_hold : option nat;
  l_widget_reset : option nat;
  l_widget_value : option nat;
}.

(** Modelled from the spec: [widget_hide] of [util_widget.js], which is not
    among the sources; the spec has it hide the control, and has a missing
    widget change nothing. *)
Definition widget_hide (r : option nat) : M World unit :=
  match r with
  | Some i => modify (with_self (update_widget i (set_w_hidden true)))
  | None => ret tt
  end.

(** Modelled from the spec: [widget_show] of [util_widget.js], which is not
    among the sources; the spec has it show the control again. *)
Definition widget_show (r : option nat) : M World unit :=
  match r with
  | Some i => modify (with_self (update_widget i (set_w_hidden false)))
  | None => ret tt
  end.

(** The widget [ComfyWidgets.STRING] of the host creates for the report: a
    multiline text widget with an empty value, appended to the node's
    widgets. *)
Definition report_widget : Widget :=
  {| w_name := "QUEUE IS EMPTY 🔜"; w_type := "customtext"; w_origType := None;
     w_value := JStr ""; w_options := None; w_inputEl := true;
     w_hidden := false |}.

Section Handlers.
Variable ToNumber : string -> option Z.

(** [widget_value.callback]. *)
Definition widget_value_callback (L : Locals) : M World unit :=
  widget_hide (l_widget_hold L) ;;
  widget_hide (l_widget_reset L) ;;
  let* w := get in
  let* widget_value := defined (deref (self w) (l_widget_value L)) in
  (if loose_eq ToNumber (w_value widget_value) (JNum 0) then
     widget_show (l_widget_reset L) ;;
     widget_show (l_widget_hold L)
   else ret tt) ;;
  emit FitHeight.

(** The ['input'] listener of the list widget: a value without [split]
    raises. *)
Definition widget_queue_input (L : Locals) : M World unit :=
  let* w := get in
  let* widget_queue := defined (deref (self w) (l_widget_queue L)) in
  match w_value widget_queue with
  | JStr text => update_list (split_nl text)
  | _ => throw
  end.

(** [widget_reset.callback]. *)
Definition widget_reset_callback (L : Locals) : M World unit :=
  assign_value (l_widget_reset L) (JBool false) ;;
  let* w := get in
  emit (ApiCmd (id (self w)) "reset").

(** [onNodeCreated], after the handler it wraps has run.  The closures it
    installs are the functions of this section applied to the [Locals] it
    returns; the node and the effects keep no record of the installations
    themselves, so a run that raises after some of them shows none. *)
Definition onNodeCreated : M World Locals :=
  modify (with_self (set_data 1 "" [])) ;;
  let* w := get in
  let* ws := defined (widgets (self w)) in
  let L := {| l_widget_queue := find_widget "Q" ws;
              l_widget_hold := find_widget "✋🏽" ws;
              l_widget_reset := find_widget "RESET" ws;
              l_widget_value := find_widget "VAL" ws |} in
  (* widget_value.callback = ... *)
  defined (l_widget_value L) ;;
  (* widget_queue?.inputEl.addEventListener(...) *)
  match deref (self w) (l_widget_queue L) with
  | Some q => if w_inputEl q then ret tt else throw
  | None => ret tt
  end ;;
  (* widget_reset.callback = ... *)
  defined (l_widget_reset L) ;;
  (* this.widget_report = ComfyWidgets.STRING(...).widget *)
  modify (with_self (fun n =>
    set_widget_report (Some (length ws))
      (set_widgets (Some (ws ++ [report_widget])%list) n))) ;;
  emit (Subscribe EVENT_JOVI_PING) ;;
  emit (Subscribe EVENT_JOVI_DONE) ;;
  emit (Defer 10) ;;
  ret L.

(** [event.detail] of the two worker events. *)
Record Detail : Type := {
  detail_id : Z;
  detail_i : Z;
  detail_l : list string;
  detail_c : string;
}.

Definition python_queue_ping (d : Detail) : M World unit :=
  let* w := get in
  if negb (detail_id d =? id (self w)) then ret tt
  else
    modify (with_self (set_data (detail_i d) (detail_c d) (detail_l d))) ;;
    update_report.

Definition python_queue_done (d : Detail) : M World unit :=
  let* w := get in
  if negb (detail_id d =? id (self w)) then ret tt
  else
    (* flashBackgroundColor(self.widget_queue.inputEl, ...) *)
    match widget_queue (self w), deref (self w) (widget_queue (self w)) with
    | Some i, Some _ => emit (Flash i)
    | _, _ => throw
    end.

(** How a wrapping handler returns: [false], [undefined] by a bare [return],
    or whatever the wrapped handler of the prototype returns. *)
Inductive Returned : Type :=
  | ReturnFalse
  | ReturnEarly
  | ReturnChained.

(** [widgets.find(w => w.name === nm)]. *)
Definition find_named (nm : string) (ws : list Widget) : option Widget :=
  List.find (fun w => String.eqb (w_name w) nm) ws.

Definition onConnectOutput (outputIndex : nat) (inputType : string)
    (inputSlot : string) (inputNode : Node) (inputIndex : nat)
  : M World Returned :=
  if (outputIndex =? 0)%nat then
    if String.eqb inputType "COMBO" then
      let* ws := defined (widgets inputNode) in
      let widget := find_named inputSlot ws in
      let* w := get in
      let* name0 := defined (head (outputs (self w))) in
      if negb (String.eqb name0 _prefix) then
        let* q := defined (deref (self w) (widget_queue (self w))) in
        let* wd := defined widget in
        let* o := defined (w_options wd) in
        let* vs := defined (values o) in
        if negb (loose_eq ToNumber (w_value q) (JStr (join nl vs)))
        then ret ReturnFalse
        else ret ReturnChained
      else ret ReturnChained
    else ret ReturnChained
  else ret ReturnChained.

Record LinkInfo : Type := {
  target_id : Z;
  target_slot : nat;
}.

(** [app.graph.getNodeById]. *)
Definition getNodeById (w : World) (k : Z) : option Node :=
  if k =? id (self w) then Some (self w) else others w !! k.

(** [widget?.origType == "combo" || widget.type == "COMBO"]. *)
Definition is_combo (wd : Widget) : bool :=
  match w_origType wd with
  | Some t => String.eqb t "combo"
  | None => false
  end || String.eqb (w_type wd) "COMBO".

Definition onConnectionsChange (slotType : TypeSlot) (slot : nat)
    (event : TypeSlotEvent) (link_info : option LinkInfo)
  : M World Returned :=
  match slotType, slot with
  | Output, O =>
      match link_info, event with
      | Some li, Connect =>
          let* w := get in
          match getNodeById w (target_id li) with
          | None => ret ReturnEarly
          | Some node =>
              match inputs node with
              | None => ret ReturnEarly
              | Some ins =>
                  match ins !! target_slot li with
                  | None => ret ReturnEarly
                  | Some target =>
                      match widgets node ≫= find_named target with
                      | None => ret ReturnEarly
                      | Some widget =>
                          rename_output0 (w_name widget) ;;
                          (if is_combo widget then
                             let* o := defined (w_options widget) in
                             let* vs := defined (values o) in
                             let* w1 := get in
                             assign_value (widget_queue (self w1))
                               (JStr (join nl vs)) ;;
                             update_list vs
                           else ret tt) ;;
                          ret ReturnChained
                      end
                  end
              end
          end
      | Some _, Disconnect => rename_output0 _prefix ;; ret ReturnChained
      | None, _ => rename_output0 _prefix ;; ret ReturnChained
      end
  | _, _ => ret ReturnChained
  end.

End Handlers.

(** *** Observations used by the properties *)

(** The value of the report widget. *)
Definition report_text (n : Node) : option jsval :=
  w_value <$> deref n (widget_report n).

(** The value of the widget [this.widget_queue] refers to. *)
Definition list_text (n : Node) : option jsval :=
  w_value <$> deref n (widget_queue n).

(** Whether the widget at position [i] is shown. *)
Definition visible (n : Node) (i : nat) : option bool :=
  negb ∘ w_hidden <$> deref n (Some i).

(** The report widget is there. *)
Definition report_ready (w : World) : Prop :=
  is_Some (deref (self w) (widget_report (self w))).

(** The downstream widget a link leads to, when every step of the lookup in
    [onConnectionsChange] succeeds. *)
Definition resolve (w : World) (li : LinkInfo) : option Widget :=
  node ← getNodeById w (target_id li);
  ins ← inputs node;
  target ← ins !! target_slot li;
  widgets node ≫= find_named target.

End Queue.

(** ** core_cozy_menu.js *)

Module Menu.

(** [nodeData.input]: the maps of declared inputs, name to type, each
    possibly absent; a map is kept as the list [Object.entries] gives. *)
Record InputTypes : Type := {
  required : option (list (string * string));
  optional : option (list (string * string));
}.

Record NodeData : Type := {
  name : string;
  input : option InputTypes;
}.

(** [['required', 'optional'].flatMap(type =>
      Object.entries(inputTypes[type] || []))]. *)
Definition matchingTypes (inputTypes : InputTypes) : list (string * string) :=
  flat_map (fun type => default [] (type inputTypes)) [required; optional].

(** What [beforeRegisterNodeDef] does to [nodeType.prototype]: it returns
    before touching it, or it replaces [getExtraMenuOptions] by a wrapper
    that closes over the [matchingTypes] computed so far. *)
Inductive Registration : Type :=
  | Untouched
  | Installed (matchingTypes : list (string * string)).

Definition beforeRegisterNodeDef (nodeData : NodeData) : Registration :=
  if negb (includes "(JOV)" (name nodeData)) then Untouched
  else
    match input nodeData with
    | Some inputTypes =>
        let mt := matchingTypes inputTypes in
        if (length mt =? 0)%nat then Untouched else Installed mt
    | None => Installed []
    end.

(** The action of a menu entry. *)
Inductive Callback : Type :=
  | convertToInput (node : Z) (widget : Widget) (widgetType : string)
  | HostCallback.

Record MenuItem : Type := {
  content : jsval;
  callback : option Callback;
}.

(** The arrays of menu entries alive during a call, by address; an entry is
    an item or [null] (a separator).  The caller's [options] array is one of
    them, [filter] allocates a new one, [push] extends one in place. *)
Abbreviation Heap := (list (list (option MenuItem))).

Definition alloc (a : list (option MenuItem)) : M Heap nat :=
  fun h => (Normal (length h), (h ++ [a])%list).
Definition push (loc : nat) (items : list (option MenuItem)) : M Heap unit :=
  modify (alter (fun a => (a ++ items)%list) loc).

(** The predicate given to [options.filter]. *)
Definition keep (option : option MenuItem) : bool :=
  match option with
  | Some {| content := JStr s |} => negb (startsWith "Convert" s)
  | _ => true
  end.

Section Hook.
(** [CONVERTED_TYPE] of [util_widget.js], which is not among the sources. *)
Variable CONVERTED_TYPE : string.
(** The [matchingTypes] of the enclosing [beforeRegisterNodeDef]. *)
Variable matchingTypes : list (string * string).

(** The condition under which a widget gets an entry. *)
Definition offered (widget : Widget) : bool :=
  negb (String.eqb (w_type widget) CONVERTED_TYPE)
  && match w_options widget ≫= forceInput with
     | None | Some false => true
     | Some true => false
     end
  && match w_options widget ≫= menu with
     | Some false => false
     | _ => true
     end.

(** The loop that fills [convertToInputArray]. *)
Definition convertToInputArray (this : Node) (widgets : list Widget)
  : list MenuItem :=
  foldl (fun acc '(widgetName, widgetType) =>
           match Queue.find_named widgetName widgets with
           | Some widget =>
               if offered widget then
                 (acc ++ [ {| content := JStr ("Convsert " +:+ w_name widget
                                                +:+ " to input");
                              callback := Some (convertToInput (id this)
                                                  widget widgetType) |} ])%list
               else acc
           | None => acc
           end) [] matchingTypes.

(** The wrapper, after the handler it wraps has run on the same arguments;
    [options] is the address of the caller's array, or [None] when the
    argument is missing.  The wrapper returns what the wrapped handler
    returned in every case. *)
Definition getExtraMenuOptions (this : Node) (options : option nat)
  : M Heap unit :=
  match widgets this with
  | None => ret tt
  | Some widgets =>
      let arr := convertToInputArray this widgets in
      let* options :=
        match options with
        | Some loc =>
            let* h := get in
            let* a := defined (h !! loc) in
            let* loc' := alloc (List.filter keep a) in
            ret (Some loc')
        | None => ret None
        end in
      if (length arr =? 0)%nat then ret tt
      else
        let* loc := defined options in
        push loc ((Some <$> arr) ++ [None])%list
  end.

End Hook.

End Menu.

(** ** Sample objects *)

Module Examples.
Import Queue.

(** A [ToNumber] for the samples: decimal integer literals. *)
Definition ToNumber_decimal (s : string) : option Z :=
  Z.of_int <$> NilZero.int_of_string s.

Definition plain_widget (nm ty : string) (v : jsval) : Widget :=
  {| w_name := nm; w_type := ty; w_origType := None; w_value := v;
     w_options := None; w_inputEl := true; w_hidden := false |}.

(** An enumerated widget that has been turned into an input socket: the
    host keeps its original type in [origType]. *)
Definition combo_widget (nm : string) (vs : list string) : Widget :=
  {| w_name := nm; w_type := "converted-widget"; w_origType := Some "combo";
     w_value := JStr (default "" (head vs));
     w_options := Some {| values := Some vs; forceInput := None;
                          menu := None |};
     w_inputEl := false; w_hidden := false |}.

Definition plain_node (k : Z) (ins : option (list string))
    (outs : list string) (ws : option (list Widget)) : Node :=
  {| id := k; inputs := ins; outputs := outs; widgets := ws;
     data_index := 0; data_current := ""; data_all := [];
     data_count := None; widget_queue := None; widget_report := None |}.

(** The queue node as the host hands it to [onNodeCreated]. *)
Definition queue_widgets (text : string) (val : Z) : list Widget :=
  [ plain_widget "Q" "customtext" (JStr text);
    plain_widget "✋🏽" "toggle" (JBool false);
    plain_widget "RESET" "toggle" (JBool false);
    plain_widget "VAL" "number" (JNum val) ].

Definition host_node : Node :=
  plain_node 4 (Some []) [_prefix] (Some (queue_widgets "" 0)).

(** The same node without its value widget. *)
Definition host_node_without_value : Node :=
  plain_node 4 (Some []) [_prefix]
    (Some [ plain_widget "Q" "customtext" (JStr "");
            plain_widget "✋🏽" "toggle" (JBool false);
            plain_widget "RESET" "toggle" (JBool false) ]).

(** A downstream node with a numeric input and an enumerated one. *)
Definition seed_widget : Widget := plain_widget "seed" "number" (JNum 1).
Definition mode_widget : Widget := combo_widget "mode" ["a"; "b"].
Definition sampler : Node :=
  plain_node 7 (Some ["seed"; "mode"]) [] (Some [seed_widget; mode_widget]).

Definition host_world : World :=
  {| self := host_node; others := {[ 7 := sampler ]}; log := [] |}.

(** The queue node once created. *)
Definition created_world : World := snd (onNodeCreated host_world).

(** A queue node in a later state: socket 0 named [out], list text [text],
    some progress recorded, and the property [widget_queue] referring to the
    list widget, which takes an assignment from outside [queue.js]. *)
Definition bound_node (out text : string) : Node :=
  {| id := 4; inputs := Some []; outputs := [out];
     widgets := Some (queue_widgets text 0 ++ [report_widget])%list;
     data_index := 2; data_current := "b"; data_all := ["a"; "b"; "c"];
     data_count := Some 3%nat;
     widget_queue := Some 0%nat; widget_report := Some 4%nat |}.

Definition bound_world (out text : string) : World :=
  {| self := bound_node out text; others := {[ 7 := sampler ]}; log := [] |}.

(** The widgets [onNodeCreated] finds on [host_node]. *)
Definition host_locals : Locals :=
  {| l_widget_queue := Some 0%nat; l_widget_hold := Some 1%nat;
     l_widget_reset := Some 2%nat; l_widget_value := Some 3%nat |}.

(** The user replaces the text of the list widget, and the ['input'] event
    fires. *)
Definition edit_list (L : Locals) (text : string) : M World unit :=
  assign_value (l_widget_queue L) (JStr text) ;;
  widget_queue_input L.

(** A node of the pack with one numeric widget, and the menu the host has
    built for it before the hook of the extension runs. *)
Definition x_widget : Widget := plain_widget "x" "number" (JNum 3).
Definition x_node : Node := plain_node 9 (Some []) [] (Some [x_widget]).
Definition host_menu : list (option Menu.MenuItem) :=
  [ Some {| Menu.content := JStr "Convert x to input";
            Menu.callback := Some Menu.HostCallback |} ].

Definition ping (k i : Z) (l : list string) (c : string) : Detail :=
  {| detail_id := k; detail_i := i; detail_l := l; detail_c := c |}.

End Examples.

(** ** The node after its creation *)

Module Session.
Import Queue.

(** What reaches the handlers of a created node: the user edits the list
    widget (the host stores the text, then the ['input'] event fires), the
    reset button is pressed, a worker event arrives, the host asks whether a
    link may be made, or tells that the links changed. *)
Inductive Event : Type :=
  | ListEdited (text : string)
  | ResetClicked
  | Ping (d : Detail)
  | Done (d : Detail)
  | ConnectAttempt (outputIndex : nat) (inputType inputSlot : string)
      (inputNode : Node) (inputIndex : nat)
  | LinksChanged (slotType : TypeSlot) (slot : nat) (event : TypeSlotEvent)
      (link_info : option LinkInfo).

Section Dispatch.
Variable ToNumber : string -> option Z.
(** The widgets the closures of [onNodeCreated] hold. *)
Variable L : Locals.

(** The handler an event runs.  The ['input'] listener exists only when the
    list widget was found. *)
Definition dispatch (e : Event) : M World unit :=
  match e with
  | ListEdited text =>
      match l_widget_queue L with
      | Some _ =>
          assign_value (l_widget_queue L) (JStr text) ;;
          widget_queue_input L
      | None => ret tt
      end
  | ResetClicked => widget_reset_callback L
  | Ping d => python_queue_ping d
  | Done d => python_queue_done d
  | ConnectAttempt outputIndex inputType inputSlot inputNode inputIndex =>
      onConnectOutput ToNumber outputIndex inputType inputSlot inputNode
        inputIndex ;;
      ret tt
  | LinksChanged slotType slot event link_info =>
      onConnectionsChange slotType slot event link_info ;;
      ret tt
  end.

(** Events are handled one after the other; what a handler has written
    stays written when it raises. *)
Definition run (events : list Event) (w : World) : World :=
  foldl (fun w e => snd (dispatch e w)) w events.

End Dispatch.

(** What no handler rewires: the node's id, the two widget references, the
    other nodes, the names of the widgets in their order, and the number of
    output sockets. *)
Definition shape (w : World)
  : Z * option nat * option nat * gmap Z Node * option (list string) * nat :=
  (id (self w), widget_queue (self w), widget_report (self w), others w,
   map w_name <$> widgets (self w), length (outputs (self w))).

(** An event that is not a progress event for this node. *)
Definition not_own_ping (w : World) (e : Event) : Prop :=
  match e with
  | Ping d => detail_id d <> id (self w)
  | _ => True
  end.

(** The lookups of [onNodeCreated] on the widgets [ws], and whether they
    let it complete: VAL and RESET are found, and the list widget, if found,
    has its text element. *)
Definition found (ws : list Widget) : Locals :=
  {| l_widget_queue := find_widget "Q" ws;
     l_widget_hold := find_widget "✋🏽" ws;
     l_widget_reset := find_widget "RESET" ws;
     l_widget_value := find_widget "VAL" ws |}.

Definition creation_ok (ws : list Widget) : bool :=
  match find_widget "VAL" ws, find_named "Q" ws, find_widget "RESET" ws with
  | Some _, Some q, Some _ => w_inputEl q
  | Some _, None, Some _ => true
  | _, _, _ => false
  end.

(** An event addressed to another node: a worker event whose [id] is not
    this node's. *)
Definition foreign (w : World) (e : Event) : Prop :=
  match e with
  | Ping d | Done d => detail_id d <> id (self w)
  | _ => False
  end.

(** How the progress data of [w'] may differ from that of [w] when no
    progress event for the node came in between: the list is the same, the
    cursor is the same or back at 1, the label is the same or empty. *)
Definition tame (w w' : World) : Prop :=
  id (self w') = id (self w)
  /\ data_all (self w') = data_all (self w)
  /\ (data_index (self w') = data_index (self w) \/ data_index (self w') = 1)
  /\ (data_current (self w') = data_current (self w)
      \/ data_current (self w') = "").

Definition keeps_tame {A} (c : M World A) : Prop :=
  forall s, tame s (snd (c s)).

(** The number of newlines of a text, and whether it has none. *)
Fixpoint count_nl (s : string) : nat :=
  match s with
  | EmptyString => 0%nat
  | String c r => ((if Ascii.eqb c "010" then 1 else 0) + count_nl r)%nat
  end.

Definition newline_free (s : string) : bool := (count_nl s =? 0)%nat.

End Session.

(** * Properties *)

Module QueueFacts.
Import Queue.

(** ** Stepping through a computation *)

Lemma bind_normal {S A B} (c : M S A) (k : A -> M S B) s a s' :
  c s = (Normal a, s') -> bind c k s = k a s'.
Proof. intros H. unfold bind. now rewrite H. Qed.

Lemma bind_throw {S A B} (c : M S A) (k : A -> M S B) s s' :
  c s = (TypeError, s') -> bind c k s = (TypeError, s').
Proof. intros H. unfold bind. now rewrite H. Qed.

(** ** Observations a computation leaves alone *)

Lemma preserves_ret {S A B} (obs : S -> B) (a : A) : preserves obs (ret a).
Proof. intros s. reflexivity. Qed.

Lemma preserves_throw {S A B} (obs : S -> B) : preserves obs (@throw S A).
Proof. intros s. reflexivity. Qed.

Lemma preserves_get {S B} (obs : S -> B) : preserves obs get.
Proof. intros s. reflexivity. Qed.

Lemma preserves_defined {S A B} (obs : S -> B) (o : option A) :
  preserves obs (defined o).
Proof. destruct o; intros s; reflexivity. Qed.

Lemma preserves_modify {S B} (obs : S -> B) (f : S -> S) :
  (forall s, obs (f s) = obs s) -> preserves obs (modify f).
Proof. intros H s. apply H. Qed.

Lemma preserves_bind {S A B C} (obs : S -> C) (c : M S A) (k : A -> M S B) :
  preserves obs c -> (forall a, preserves obs (k a)) ->
  preserves obs (bind c k).
Proof.
  intros Hc Hk s. unfold bind. specialize (Hc s).
  destruct (c s) as [[a|] s']; cbn [snd] in *.
  - rewrite Hk. exact Hc.
  - exact Hc.
Qed.

Create HintDb frame.
#[export] Hint Resolve preserves_ret preserves_throw preserves_get
  preserves_defined preserves_modify preserves_bind : frame.

(** ** Widget references *)

Lemma deref_update_widget n i f j :
  deref (update_widget i f n) (Some j)
  = (if decide (i = j) then f else fun x => x) <$> deref n (Some j).
Proof.
  unfold deref, update_widget. simpl.
  destruct (widgets n) as [ws|]; simpl; [|reflexivity].
  destruct (decide (i = j)) as [->|Hne].
  - apply list_lookup_alter_eq.
  - rewrite list_lookup_alter_ne by assumption. now destruct (ws !! j).
Qed.

Lemma deref_update_widget_eq n i f x :
  deref n (Some i) = Some x ->
  deref (update_widget i f n) (Some i) = Some (f x).
Proof.
  intros H. rewrite deref_update_widget, H.
  destruct (decide (i = i)); [reflexivity | congruence].
Qed.

Lemma deref_update_widget_ne n i f j :
  i <> j -> deref (update_widget i f n) (Some j) = deref n (Some j).
Proof.
  intros H. rewrite deref_update_widget.
  destruct (decide (i = j)); [congruence|]. now destruct (deref n (Some j)).
Qed.

Lemma deref_Some_ref n r x : deref n r = Some x -> exists i, r = Some i.
Proof. destruct r; [eauto | discriminate]. Qed.

Lemma deref_set_outputs n o r : deref (set_outputs o n) r = deref n r.
Proof. reflexivity. Qed.

Lemma deref_set_data n i c l r : deref (set_data i c l n) r = deref n r.
Proof. reflexivity. Qed.

Lemma deref_set_data_count n k r : deref (set_data_count k n) r = deref n r.
Proof. reflexivity. Qed.

(** ** The two helpers of the extension *)

Lemma assign_value_ok w i x v :
  deref (self w) (Some i) = Some x ->
  assign_value (Some i) v w
  = (Normal tt, with_self (update_widget i (set_w_value v)) w).
Proof. intros H. unfold assign_value, bind, get. now rewrite H. Qed.

Lemma assign_value_undefined w v :
  assign_value None v w = (TypeError, w).
Proof. reflexivity. Qed.

Lemma update_report_ok w r rw :
  widget_report (self w) = Some r ->
  deref (self w) (Some r) = Some rw ->
  update_report w
  = (Normal tt,
     {| self := update_widget r
                  (set_w_value (JStr (render (data_index (self w))
                                        (length (data_all (self w)))
                                        (data_current (self w)))))
                  (self w);
        others := others w;
        log := log w ++ [SetDirty] |}).
Proof.
  intros Hr Hd. unfold update_report, bind, get. rewrite Hr.
  rewrite (assign_value_ok w r rw _ Hd). reflexivity.
Qed.

Lemma update_list_ok w value r rw :
  widget_report (self w) = Some r ->
  deref (self w) (Some r) = Some rw ->
  update_list value w
  = (Normal tt,
     {| self := update_widget r
                  (set_w_value (JStr (render 1 (length (data_all (self w))) "")))
                  (set_data 1 "" (data_all (self w))
                     (set_data_count (length value) (self w)));
        others := others w;
        log := log w ++ [SetDirty; ApiCmd (id (self w)) "reset"] |}).
Proof.
  intros Hr Hd. unfold update_list, emit, bind, modify, get.
  rewrite (update_report_ok _ r rw) by assumption.
  simpl. rewrite <- app_assoc. reflexivity.
Qed.

Lemma python_queue_ping_ok w d r rw :
  detail_id d = id (self w) ->
  widget_report (self w) = Some r ->
  deref (self w) (Some r) = Some rw ->
  python_queue_ping d w
  = (Normal tt,
     {| self := update_widget r
                  (set_w_value (JStr (render (detail_i d)
                                        (length (detail_l d)) (detail_c d))))
                  (set_data (detail_i d) (detail_c d) (detail_l d) (self w));
        others := others w;
        log := log w ++ [SetDirty] |}).
Proof.
  intros Hid Hr Hd. unfold python_queue_ping, bind, modify, get.
  rewrite Hid, Z.eqb_refl. simpl.
  rewrite (update_report_ok _ r rw) by assumption.
  reflexivity.
Qed.

(** Neither helper touches the names of the output sockets. *)
Lemma assign_value_outputs r v :
  preserves (fun w => outputs (self w)) (assign_value r v).
Proof.
  unfold assign_value. apply preserves_bind; [auto with frame|].
  intros w. destruct r; [destruct (deref _ _)|]; auto with frame.
Qed.

Lemma update_list_outputs value :
  preserves (fun w => outputs (self w)) (update_list value).
Proof.
  unfold update_list, update_report, emit.
  repeat (first [ apply assign_value_outputs
                | apply preserves_bind; [|intros ?]
                | apply preserves_modify; intros ?; reflexivity
                | apply preserves_get ]).
Qed.

(** Nor does the list edit touch [data_all]. *)
Lemma assign_value_data_all r v :
  preserves (fun w => data_all (self w)) (assign_value r v).
Proof.
  unfold assign_value. apply preserves_bind; [auto with frame|].
  intros w. destruct r; [destruct (deref _ _)|]; auto with frame.
Qed.

Lemma update_list_data_all value :
  preserves (fun w => data_all (self w)) (update_list value).
Proof.
  unfold update_list, update_report, emit.
  repeat (first [ apply assign_value_data_all
                | apply preserves_bind; [|intros ?]
                | apply preserves_modify; intros ?; reflexivity
                | apply preserves_get ]).
Qed.

Lemma widget_queue_input_data_all L :
  preserves (fun w => data_all (self w)) (widget_queue_input L).
Proof.
  unfold widget_queue_input. apply preserves_bind; [auto with frame|].
  intros w. apply preserves_bind; [auto with frame|].
  intros q. destruct (w_value q); auto with frame.
  apply update_list_data_all.
Qed.

Lemma rename_output0_ok w nm name0 rest :
  outputs (self w) = name0 :: rest ->
  rename_output0 nm w = (Normal tt, with_self (set_outputs (nm :: rest)) w).
Proof. intros H. unfold rename_output0, bind, get. now rewrite H. Qed.

(** The four early returns of [onConnectionsChange] are the failures of
    [resolve]. *)
Lemma onConnectionsChange_connect_step w li :
  onConnectionsChange Output 0 Connect (Some li) w
  = match resolve w li with
    | None => (Normal ReturnEarly, w)
    | Some widget =>
        (rename_output0 (w_name widget) ;;
         (if is_combo widget then
            let* o := defined (w_options widget) in
            let* vs := defined (values o) in
            let* w1 := get in
            assign_value (widget_queue (self w1)) (JStr (join nl vs)) ;;
            update_list vs
          else ret tt) ;;
         ret ReturnChained) w
    end.
Proof.
  unfold onConnectionsChange, resolve.
  unfold bind at 1, get at 1.
  destruct (getNodeById w (target_id li)) as [node|]; [|reflexivity].
  cbn [mbind option_bind].
  destruct (inputs node) as [ins|]; [|reflexivity].
  cbn [mbind option_bind].
  destruct (ins !! target_slot li) as [target|]; [|reflexivity].
  cbn [mbind option_bind].
  destruct (widgets node ≫= find_named target); reflexivity.
Qed.

(** ** The report widget stays in place

    [onNodeCreated] creates the report widget and the handlers never remove
    a widget, so the report widget is there whenever a later handler runs. *)

Lemma stable_bind {A B} (P : World -> Prop) (c : M World A)
    (k : A -> M World B) :
  stable P c -> (forall a, stable P (k a)) -> stable P (bind c k).
Proof.
  intros Hc Hk s Hs. unfold bind. specialize (Hc s Hs).
  destruct (c s) as [[a|] s']; cbn [snd] in *; [now apply Hk | exact Hc].
Qed.

Lemma stable_pure {A} (P : World -> Prop) (c : M World A) :
  (forall s, snd (c s) = s) -> stable P c.
Proof. intros H s Hs. now rewrite H. Qed.

Lemma stable_defined {A} (P : World -> Prop) (o : option A) :
  stable P (defined o).
Proof. apply stable_pure. now destruct o. Qed.

Lemma report_ready_update_widget w i f :
  report_ready w -> report_ready (with_self (update_widget i f) w).
Proof.
  unfold report_ready. cbn [self with_self]. intros [x Hx].
  change (widget_report (update_widget i f (self w)))
    with (widget_report (self w)).
  destruct (deref_Some_ref _ _ _ Hx) as [r Hr]. rewrite Hr in Hx |- *.
  rewrite deref_update_widget, Hx. eauto.
Qed.

Lemma stable_assign_value r v : stable report_ready (assign_value r v).
Proof.
  unfold assign_value. apply stable_bind; [now apply stable_pure|].
  intros w. destruct r; [destruct (deref _ _)|]; try now apply stable_pure.
  intros s Hs. now apply report_ready_update_widget.
Qed.

Lemma stable_emit e : stable report_ready (emit e).
Proof. intros s Hs. exact Hs. Qed.

Lemma stable_update_report : stable report_ready update_report.
Proof.
  unfold update_report. apply stable_bind; [now apply stable_pure|].
  intros w. apply stable_bind; [apply stable_assign_value|].
  intros _. apply stable_emit.
Qed.

Lemma stable_update_list value : stable report_ready (update_list value).
Proof.
  unfold update_list.
  apply stable_bind; [intros s Hs; exact Hs|]. intros _.
  apply stable_bind; [intros s Hs; exact Hs|]. intros _.
  apply stable_bind; [apply stable_update_report|]. intros _.
  apply stable_bind; [now apply stable_pure|]. intros w. apply stable_emit.
Qed.

Lemma stable_python_queue_ping d : stable report_ready (python_queue_ping d).
Proof.
  unfold python_queue_ping. apply stable_bind; [now apply stable_pure|].
  intros w. destruct (negb _); [now apply stable_pure|].
  apply stable_bind; [intros s Hs; exact Hs|]. intros _.
  apply stable_update_report.
Qed.

Lemma stable_widget_queue_input L : stable report_ready (widget_queue_input L).
Proof.
  unfold widget_queue_input. apply stable_bind; [now apply stable_pure|].
  intros w. apply stable_bind; [apply stable_defined|].
  intros q. destruct (w_value q); try now apply stable_pure.
  apply stable_update_list.
Qed.

Lemma stable_onConnectionsChange slotType slot event link_info :
  stable report_ready (onConnectionsChange slotType slot event link_info).
Proof.
  assert (Hren : forall nm, stable report_ready (rename_output0 nm)).
  { intros nm. unfold rename_output0.
    apply stable_bind; [now apply stable_pure|].
    intros w. destruct (outputs (self w)) as [|name0 rest];
      [now apply stable_pure|].
    intros s0 Hs. exact Hs. }
  assert (Hrev : stable report_ready
                   (rename_output0 _prefix ;; ret ReturnChained)).
  { apply stable_bind; [apply Hren | intros _; now apply stable_pure]. }
  destruct slotType; [now apply stable_pure|].
  destruct slot; [|now apply stable_pure].
  destruct link_info as [li|]; [|exact Hrev].
  destruct event; [|exact Hrev].
  intros s Hs. rewrite onConnectionsChange_connect_step.
  destruct (resolve s li) as [widget|]; [|exact Hs].
  revert s Hs. apply stable_bind; [apply Hren|]. intros _.
  apply stable_bind; [|intros _; now apply stable_pure].
  destruct (is_combo widget); [|now apply stable_pure].
  apply stable_bind; [apply stable_defined|]. intros o.
  apply stable_bind; [apply stable_defined|]. intros vs.
  apply stable_bind; [now apply stable_pure|]. intros w1.
  apply stable_bind; [apply stable_assign_value|]. intros _.
  apply stable_update_list.
Qed.

(** What [onNodeCreated] establishes when it completes. *)
Lemma onNodeCreated_ok w L w' :
  onNodeCreated w = (Normal L, w') ->
  report_ready w'
  /\ report_text (self w') = Some (JStr "")
  /\ data_index (self w') = 1
  /\ data_current (self w') = ""
  /\ data_all (self w') = []
  /\ widget_queue (self w') = widget_queue (self w)
  /\ is_Some (l_widget_value L) /\ is_Some (l_widget_reset L).
Proof.
  unfold onNodeCreated, bind, modify, get, defined, ret, throw, emit.
  cbn [self with_self set_data widgets].
  destruct (widgets (self w)) as [ws|]; [|discriminate].
  destruct (find_widget "VAL" ws) as [iv|]; [|discriminate].
  cbn [l_widget_queue l_widget_reset l_widget_value].
  destruct (deref _ (find_widget "Q" ws)) as [q|];
    [destruct (w_inputEl q); [|discriminate]|];
    (destruct (find_widget "RESET" ws) as [ir|]; [|discriminate]);
    intros H; injection H as <- <-.
  all: cbn [self with_self set_widget_report set_widgets widget_report
            data_index data_current data_all widget_queue set_data].
  all: unfold report_ready, report_text, deref.
  all: cbn [self widget_report widgets set_widget_report set_widgets
            l_widget_value l_widget_reset].
  all: rewrite list_lookup_middle by reflexivity.
  all: repeat split; eauto.
Qed.

End QueueFacts.

Module MenuFacts.
Import Menu.

(** Every array that exists when the hook is entered is the same when it
    returns: [filter] builds a new array and [push] extends that one. *)
Lemma getExtraMenuOptions_keeps_arrays CONVERTED_TYPE mt this options
    (h : Heap) (loc : nat) :
  (loc < length h)%nat ->
  snd (getExtraMenuOptions CONVERTED_TYPE mt this options h) !! loc = h !! loc.
Proof.
  intros Hlt. unfold getExtraMenuOptions.
  destruct (widgets this) as [ws|]; [|reflexivity].
  destruct options as [l|]; unfold bind, get, defined, ret, throw, alloc.
  - destruct (h !! l) as [a|]; [|reflexivity].
    destruct (length (convertToInputArray CONVERTED_TYPE mt this ws) =? 0)%nat;
      cbn [snd]; [now apply lookup_app_l|].
    unfold push, modify. cbn [snd].
    rewrite list_lookup_alter_ne by lia. now apply lookup_app_l.
  - destruct (length (convertToInputArray CONVERTED_TYPE mt this ws) =? 0)%nat;
      reflexivity.
Qed.

(** When the hook is left in place. *)
Lemma beforeRegisterNodeDef_Untouched nodeData :
  beforeRegisterNodeDef nodeData = Untouched
  <-> includes "(JOV)" (name nodeData) = false
      \/ exists inputTypes, input nodeData = Some inputTypes
                            /\ matchingTypes inputTypes = [].
Proof.
  unfold beforeRegisterNodeDef.
  destruct (includes "(JOV)" (name nodeData)); cbn [negb].
  - destruct (input nodeData) as [it|].
    + destruct (matchingTypes it) as [|e r] eqn:E; cbn [length Nat.eqb].
      * split; [intros _; right; eauto | reflexivity].
      * split; [discriminate|].
        intros [H|(it' & Hit & Hm)]; [discriminate|].
        injection Hit as <-. rewrite E in Hm. discriminate.
    + split; [discriminate|].
      intros [H|(it' & Hit & _)]; discriminate.
  - split; [auto | reflexivity].
Qed.

End MenuFacts.

Import Queue QueueFacts.

(** ** Progress events *)





(** ** The value widget *)

(** C8: after the callback of the value widget has run, the hold widget and
    the reset widget are shown exactly when the value is 0, and hidden for
    every other value, whatever their visibility was before. *)
Theorem widget_value_callback_visibility (ToNumber : string -> option Z)
    (w : World) (L : Locals) (ih ir iv : nat) (wh wr wv : Widget) (z : Z) :
  l_widget_hold L = Some ih ->
  l_widget_reset L = Some ir ->
  l_widget_value L = Some iv ->
  deref (self w) (Some ih) = Some wh ->
  deref (self w) (Some ir) = Some wr ->
  deref (self w) (Some iv) = Some wv ->
  w_value wv = JNum z ->
  let w' := snd (widget_value_callback ToNumber L w) in
  fst (widget_value_callback ToNumber L w) = Normal tt
  /\ visible (self w') ih = Some (z =? 0)
  /\ visible (self w') ir = Some (z =? 0)
  /\ (z <> 0 -> visible (self w') ih = Some false
                /\ visible (self w') ir = Some false).
Proof.
  intros Hh Hr Hv Hdh Hdr Hdv Hz.
  assert (Hval : forall n x, deref n (Some iv) = Some x -> w_value x = JNum z ->
            forall i b, exists x', deref (update_widget i (set_w_hidden b) n) (Some iv) = Some x'
                       /\ w_value x' = JNum z).
  { intros n x Hx Hxz i b. rewrite deref_update_widget, Hx.
    destruct (decide (i = iv)); eexists; (split; [reflexivity | exact Hxz]). }
  unfold widget_value_callback. rewrite Hh, Hr, Hv.
  unfold widget_hide, widget_show, emit, bind, modify, get, defined, ret.
  cbn [self with_self].
  destruct (Hval _ _ Hdv Hz ih true) as (x1 & Hx1 & Hz1).
  destruct (Hval _ _ Hx1 Hz1 ir true) as (x2 & Hx2 & Hz2).
  rewrite Hx2, Hz2. cbn [loose_eq].
  assert (Hvis : forall n i j b x, deref n (Some j) = Some x ->
            visible (update_widget i (set_w_hidden b) n) j
            = Some (if decide (i = j) then negb b else negb (w_hidden x))).
  { intros n i j b x Hx. unfold visible. rewrite deref_update_widget, Hx.
    destruct (decide (i = j)); reflexivity. }
  assert (Hex : forall n i j b x, deref n (Some j) = Some x ->
            exists x', deref (update_widget i (set_w_hidden b) n) (Some j) = Some x').
  { intros n i j b x Hx. rewrite deref_update_widget, Hx. eexists; reflexivity. }
  destruct (Hex _ ih ih true _ Hdh) as (h1 & Hh1).
  destruct (Hex _ ir ih true _ Hh1) as (h2 & Hh2).
  destruct (Hex _ ih ir true _ Hdr) as (r1 & Hr1).
  destruct (Hex _ ir ir true _ Hr1) as (r2 & Hr2).
  assert (Hhid_h : visible (update_widget ir (set_w_hidden true)
                     (update_widget ih (set_w_hidden true) (self w))) ih
                   = Some false).
  { rewrite (Hvis _ ir ih true h1 Hh1).
    destruct (decide (ir = ih)); [reflexivity|].
    f_equal. rewrite deref_update_widget_eq with (x := wh) in Hh1 by exact Hdh.
    injection Hh1 as <-. reflexivity. }
  assert (Hhid_r : visible (update_widget ir (set_w_hidden true)
                     (update_widget ih (set_w_hidden true) (self w))) ir
                   = Some false).
  { rewrite (Hvis _ ir ir true r1 Hr1).
    destruct (decide (ir = ir)); [reflexivity | congruence]. }
  destruct (z =? 0) eqn:Ez; cbn [fst snd self with_self].
  - split; [reflexivity|].
    destruct (Hex _ ir ih false _ Hh2) as (h3 & Hh3).
    destruct (Hex _ ir ir false _ Hr2) as (r3 & Hr3).
    split; [|split].
    + rewrite (Hvis _ ih ih false h3 Hh3).
      destruct (decide (ih = ih)); [reflexivity | congruence].
    + rewrite (Hvis _ ih ir false r3 Hr3).
      destruct (decide (ih = ir)); [reflexivity|].
      f_equal. rewrite deref_update_widget_eq with (x := r2) in Hr3 by exact Hr2.
      injection Hr3 as <-. reflexivity.
    + intros Hne. apply Z.eqb_eq in Ez. contradiction.
  - split; [reflexivity|]. repeat split; assumption.
Qed.

Lemma widget_value_callback_visibility_witness :
  let w := Examples.created_world in
  let c := widget_value_callback Examples.ToNumber_decimal
             Examples.host_locals in
  (w_value <$> deref (self w) (Some 3%nat)) = Some (JNum 0)
  /\ visible (self (snd (c w))) 1 = Some true
  /\ visible (self (snd (c w))) 2 = Some true.
Proof.
  split; [reflexivity|].
  pose proof (widget_value_callback_visibility Examples.ToNumber_decimal
                Examples.created_world Examples.host_locals
                1 2 3 _ _ _ 0 eq_refl eq_refl eq_refl eq_refl eq_refl eq_refl
                eq_refl) as H.
  cbv zeta in H. destruct H as (_ & Hh & Hr & _).
  split; [exact Hh | exact Hr].
Defined.

(** ** Editing the list *)

(** C2, as the code has it: on a freshly created node whose list widget is
    set to the three lines a, b, c, the listener records the count 3, resets
    [data_index] to 1 and [data_current] to the empty string and sends
    "reset" for the node's id, but [data_all] stays empty and the report
    reads "[1 / 0]" and a newline, not "[1 / 3]". *)
Theorem list_edit_on_fresh_node :
  let run := (let* L := onNodeCreated in
              Examples.edit_list L ("a" +:+ nl +:+ "b" +:+ nl +:+ "c"))
               Examples.host_world in
  fst run = Normal tt
  /\ data_count (self (snd run)) = Some 3%nat
  /\ data_index (self (snd run)) = 1
  /\ data_current (self (snd run)) = ""
  /\ data_all (self (snd run)) = []
  /\ report_text (self (snd run)) = Some (JStr ("[1 / 0]" +:+ nl))
  /\ last (log (snd run)) = Some (ApiCmd 4 "reset").
Proof. vm_compute. repeat split. Qed.

(** ** Failure paths *)

(** C3, as the code has it: handlers end in a [TypeError] where an object
    they expect is missing.  [onNodeCreated] raises when the node has no
    widget named VAL.  On a node as [onNodeCreated] leaves it, where
    [this.widget_queue] was never assigned: [python_queue_done] raises on
    the node's own event; [onConnectionsChange] raises, after renaming the
    socket, when the new link leads to an enumerated widget; and
    [onConnectOutput] raises on a COMBO input once the socket has been
    renamed by an earlier link.  With [this.widget_queue] set,
    [onConnectOutput] still raises when the downstream node has no widget
    of the slot's name. *)
Theorem handlers_raise_on_missing_objects :
  let link slot := Some {| target_id := 7; target_slot := slot |} in
  fst (onNodeCreated
         {| self := Examples.host_node_without_value; others := ∅;
            log := [] |}) = TypeError
  /\ fst (python_queue_done (Examples.ping 4 0 [] "")
            Examples.created_world) = TypeError
  /\ fst (onConnectionsChange Output 0 Connect (link 1%nat)
            Examples.created_world) = TypeError
  /\ fst ((onConnectionsChange Output 0 Connect (link 0%nat) ;;
           onConnectOutput Examples.ToNumber_decimal 0 "COMBO" "mode"
             Examples.sampler 1) Examples.created_world) = TypeError
  /\ fst (onConnectOutput Examples.ToNumber_decimal 0 "COMBO" "latent"
            Examples.sampler 0 (Examples.bound_world "mode" "a")) = TypeError.
Proof. vm_compute. repeat split. Qed.

(** ** Connecting the output *)

(** C1, as stated, fails: with the socket still named by the placeholder and
    a list text that differs from the joined values of the COMBO widget, the
    link is not rejected. *)
Lemma onConnectOutput_placeholder_not_rejected :
  let w := Examples.bound_world _prefix "x" in
  head (outputs (self w)) = Some _prefix
  /\ list_text (self w) = Some (JStr "x")
  /\ find_named "mode" [Examples.seed_widget; Examples.mode_widget]
     = Some (Examples.combo_widget "mode" ["a"; "b"])
  /\ "x" <> join nl ["a"; "b"]
  /\ onConnectOutput Examples.ToNumber_decimal 0 "COMBO" "mode"
       Examples.sampler 1 w = (Normal ReturnChained, w).
Proof. vm_compute. repeat split. discriminate. Qed.

(** C1, amended: a link from socket 0 to a COMBO input is not rejected
    while the socket is still named by the placeholder; when the node's list
    widget and the downstream widget with its values resolve, it is rejected
    exactly when the socket has been renamed away from the placeholder and
    the list text differs from the values joined by newline; for another
    input type or another output index the gate passes the decision on.
    In none of these cases does the gate change anything. *)
Theorem onConnectOutput_gate (ToNumber : string -> option Z) (w : World)
    (inputSlot : string) (inputNode : Node) (inputIndex : nat)
    (ws : list Widget) (name0 : string) :
  widgets inputNode = Some ws ->
  head (outputs (self w)) = Some name0 ->
  let gate := onConnectOutput ToNumber 0 "COMBO" inputSlot inputNode
                inputIndex w in
  (name0 = _prefix -> gate = (Normal ReturnChained, w))
  /\ (forall q text wd o vs,
        deref (self w) (widget_queue (self w)) = Some q ->
        w_value q = JStr text ->
        find_named inputSlot ws = Some wd ->
        w_options wd = Some o ->
        values o = Some vs ->
        (fst gate = Normal ReturnFalse
         <-> name0 <> _prefix /\ text <> join nl vs)
        /\ (text = join nl vs -> gate = (Normal ReturnChained, w))
        /\ snd gate = w)
  /\ (forall outputIndex inputType,
        outputIndex <> 0%nat \/ inputType <> "COMBO" ->
        onConnectOutput ToNumber outputIndex inputType inputSlot inputNode
          inputIndex w = (Normal ReturnChained, w)).
Proof.
  intros Hws Hn. cbv zeta.
  assert (Hplace : name0 = _prefix ->
            onConnectOutput ToNumber 0 "COMBO" inputSlot inputNode inputIndex w
            = (Normal ReturnChained, w)).
  { intros ->. unfold onConnectOutput. cbn [Nat.eqb]. rewrite String.eqb_refl.
    unfold bind, get, defined, ret. rewrite Hws, Hn.
    rewrite String.eqb_refl. reflexivity. }
  split; [exact Hplace|]. split.
  - intros q text wd o vs Hq Hv Hf Ho Hvs.
    assert (Hrun : onConnectOutput ToNumber 0 "COMBO" inputSlot inputNode
                     inputIndex w
                   = (Normal (if negb (String.eqb name0 _prefix)
                                 && negb (String.eqb text (join nl vs))
                              then ReturnFalse else ReturnChained), w)).
    { unfold onConnectOutput. cbn [Nat.eqb]. rewrite String.eqb_refl.
      unfold bind, get, defined, ret. rewrite Hws, Hn.
      destruct (String.eqb name0 _prefix); cbn [negb andb]; [reflexivity|].
      rewrite Hq, Hf, Ho, Hvs, Hv. cbn [loose_eq].
      destruct (String.eqb text (join nl vs)); reflexivity. }
    rewrite Hrun. cbn [fst snd]. split; [|split; [|reflexivity]].
    + destruct (String.eqb_spec name0 _prefix) as [He|Hne];
        destruct (String.eqb_spec text (join nl vs)) as [Ht|Hnt];
        cbn [negb andb]; split; try discriminate; try tauto.
    + intros ->. rewrite String.eqb_refl, andb_false_r. reflexivity.
  - intros outputIndex inputType [Hi|Ht]; unfold onConnectOutput.
    + apply Nat.eqb_neq in Hi. rewrite Hi. reflexivity.
    + apply String.eqb_neq in Ht. rewrite Ht.
      destruct (outputIndex =? 0)%nat; reflexivity.
Qed.

Lemma onConnectOutput_gate_witness :
  let w := Examples.bound_world "mode" "x" in
  list_text (self w) = Some (JStr "x")
  /\ fst (onConnectOutput Examples.ToNumber_decimal 0 "COMBO" "mode"
            Examples.sampler 1 w) = Normal ReturnFalse.
Proof.
  split; [reflexivity|].
  pose proof (onConnectOutput_gate Examples.ToNumber_decimal
                (Examples.bound_world "mode" "x") "mode" Examples.sampler 1
                [Examples.seed_widget; Examples.mode_widget] "mode"
                eq_refl eq_refl) as H.
  cbv zeta in H. destruct H as (_ & Hres & _).
  specialize (Hres (Examples.plain_widget "Q" "customtext" (JStr "x")) "x"
                Examples.mode_widget
                {| values := Some ["a"; "b"]; forceInput := None;
                   menu := None |}
                ["a"; "b"] eq_refl eq_refl eq_refl eq_refl eq_refl).
  destruct Hres as (Hiff & _). apply Hiff. split; discriminate.
Defined.

(** C5, as stated, fails: the downstream widget of the link is not an
    enumerated one, and the output socket is renamed to its name all the
    same. *)
Lemma onConnectionsChange_renames_for_plain_widget :
  let w := Examples.bound_world _prefix "x" in
  let li := {| target_id := 7; target_slot := 0 |} in
  resolve w li = Some Examples.seed_widget
  /\ is_combo Examples.seed_widget = false
  /\ outputs (self (snd (onConnectionsChange Output 0 Connect (Some li) w)))
     = ["seed"].
Proof. vm_compute. repeat split. Qed.

(** C5, amended: when a new link from output socket 0 resolves to a
    downstream widget, the socket is renamed to the widget's name whether or
    not the widget is enumerated, and nothing else changes for a widget that
    is not; for an enumerated widget whose values are present, on a node
    whose list widget and report widget are set and distinct, the text of the
    list widget becomes the values joined by newline, the count of the values
    is recorded, [data_index] is reset to 1 and [data_current] cleared, the
    report is recomputed and "reset" is sent for the node's id. *)
Theorem onConnectionsChange_connect (w : World) (li : LinkInfo)
    (widget : Widget) (name0 : string) (rest : list string) :
  resolve w li = Some widget ->
  outputs (self w) = name0 :: rest ->
  let run := onConnectionsChange Output 0 Connect (Some li) w in
  outputs (self (snd run)) = w_name widget :: rest
  /\ (is_combo widget = false ->
      run = (Normal ReturnChained,
             with_self (set_outputs (w_name widget :: rest)) w))
  /\ (is_combo widget = true ->
      forall o vs q rw,
        w_options widget = Some o ->
        values o = Some vs ->
        deref (self w) (widget_queue (self w)) = Some q ->
        deref (self w) (widget_report (self w)) = Some rw ->
        widget_queue (self w) <> widget_report (self w) ->
        fst run = Normal ReturnChained
        /\ list_text (self (snd run)) = Some (JStr (join nl vs))
        /\ data_count (self (snd run)) = Some (length vs)
        /\ data_index (self (snd run)) = 1
        /\ data_current (self (snd run)) = ""
        /\ report_text (self (snd run))
           = Some (JStr (render 1 (length (data_all (self (snd run)))) ""))
        /\ log (snd run)
           = (log w ++ [SetDirty; ApiCmd (id (self w)) "reset"])%list).
Proof.
  intros Hres Hout. cbv zeta.
  rewrite onConnectionsChange_connect_step, Hres.
  set (w1 := with_self (set_outputs (w_name widget :: rest)) w).
  assert (Hren : rename_output0 (w_name widget) w = (Normal tt, w1))
    by (apply rename_output0_ok with (name0 := name0); exact Hout).
  rewrite (bind_normal _ _ _ _ _ Hren).
  destruct (is_combo widget) eqn:Hc.
  - assert (Hcombo :
      forall o vs q rw,
        w_options widget = Some o -> values o = Some vs ->
        deref (self w) (widget_queue (self w)) = Some q ->
        deref (self w) (widget_report (self w)) = Some rw ->
        widget_queue (self w) <> widget_report (self w) ->
        exists iq ir,
          widget_queue (self w) = Some iq /\ widget_report (self w) = Some ir
          /\ iq <> ir
          /\ ((let* o := defined (w_options widget) in
               let* vs := defined (values o) in
               let* w2 := get in
               assign_value (widget_queue (self w2)) (JStr (join nl vs)) ;;
               update_list vs) ;; ret ReturnChained) w1
             = (Normal ReturnChained,
                {| self :=
                     update_widget ir
                       (set_w_value (JStr (render 1 (length (data_all (self w))) "")))
                       (set_data 1 "" (data_all (self w))
                          (set_data_count (length vs)
                             (update_widget iq (set_w_value (JStr (join nl vs)))
                                (self w1))));
                   others := others w;
                   log := log w ++ [SetDirty; ApiCmd (id (self w)) "reset"] |})).
    { intros o vs q rw Ho Hvs Hq Hr Hne.
      destruct (deref_Some_ref _ _ _ Hq) as [iq Hiq].
      destruct (deref_Some_ref _ _ _ Hr) as [ir Hir].
      rewrite Hiq in Hq. rewrite Hir in Hr.
      assert (iq <> ir) by congruence.
      exists iq, ir. repeat split; try assumption.
      unfold bind at 1. unfold bind at 1. rewrite Ho. unfold defined at 1, ret at 1.
      unfold bind at 1. rewrite Hvs. unfold defined at 1, ret at 1.
      unfold bind at 1, get at 1.
      replace (widget_queue (self w1)) with (Some iq) by (symmetry; exact Hiq).
      unfold bind at 1.
      rewrite (assign_value_ok w1 iq q) by exact Hq.
      rewrite (update_list_ok _ vs ir rw);
        [reflexivity | exact Hir |].
      cbn [self with_self]. rewrite deref_update_widget_ne by assumption.
      exact Hr. }
    split; [|split; [discriminate|]].
    + (* the rename survives whatever follows, a [TypeError] included *)
      match goal with
      | |- outputs (self (snd (?c w1))) = _ =>
          assert (Hkeep : preserves (fun w => outputs (self w)) c)
      end.
      { repeat (first [ apply assign_value_outputs
                      | apply update_list_outputs
                      | apply preserves_bind; [|intros ?]
                      | apply preserves_defined
                      | apply preserves_get
                      | apply preserves_ret ]). }
      rewrite (Hkeep w1). reflexivity.
    + intros _ o vs q rw Ho Hvs Hq Hr Hne.
      destruct (Hcombo o vs q rw Ho Hvs Hq Hr Hne)
        as (iq & ir & Hiq & Hir & Hd & Hrun).
      rewrite Hrun. cbn [fst snd self log].
      split; [reflexivity|].
      split.
      { unfold list_text.
        cbn [widget_queue update_widget set_widgets set_data set_data_count
             w1 with_self self set_outputs].
        rewrite Hiq.
        change (w_value <$> deref
                  (update_widget ir
                     (set_w_value (JStr (render 1 (length (data_all (self w))) "")))
                     (set_data 1 "" (data_all (self w))
                        (set_data_count (length vs)
                           (update_widget iq (set_w_value (JStr (join nl vs)))
                              (set_outputs (w_name widget :: rest) (self w))))))
                  (Some iq) = Some (JStr (join nl vs))).
        rewrite deref_update_widget_ne by congruence.
        rewrite deref_set_data, deref_set_data_count.
        rewrite Hiq in Hq.
        rewrite (deref_update_widget_eq _ iq _ q) by exact Hq.
        reflexivity. }
      split; [reflexivity|]. split; [reflexivity|]. split; [reflexivity|].
      split; [|reflexivity].
      unfold report_text.
      cbn [widget_report update_widget set_widgets set_data set_data_count
           w1 with_self self set_outputs data_all].
      rewrite Hir.
      change (w_value <$> deref
                (update_widget ir
                   (set_w_value (JStr (render 1 (length (data_all (self w))) "")))
                   (set_data 1 "" (data_all (self w))
                      (set_data_count (length vs)
                         (update_widget iq (set_w_value (JStr (join nl vs)))
                            (set_outputs (w_name widget :: rest) (self w))))))
                (Some ir)
              = Some (JStr (render 1 (length (data_all (self w))) ""))).
      rewrite Hir in Hr.
      erewrite deref_update_widget_eq; [reflexivity|].
      rewrite deref_set_data, deref_set_data_count.
      rewrite deref_update_widget_ne by assumption.
      exact Hr.
  - split; [reflexivity|]. split; [reflexivity | discriminate].
Qed.

Lemma onConnectionsChange_connect_witness :
  let w := Examples.bound_world _prefix "x" in
  let li := {| target_id := 7; target_slot := 1 |} in
  let run := onConnectionsChange Output 0 Connect (Some li) w in
  resolve w li = Some Examples.mode_widget
  /\ outputs (self (snd run)) = ["mode"]
  /\ list_text (self (snd run)) = Some (JStr ("a" +:+ nl +:+ "b"))
  /\ data_index (self (snd run)) = 1
  /\ log (snd run) = [SetDirty; ApiCmd 4 "reset"].
Proof.
  pose proof (onConnectionsChange_connect (Examples.bound_world _prefix "x")
                {| target_id := 7; target_slot := 1 |} Examples.mode_widget
                _prefix [] eq_refl eq_refl) as H.
  cbv zeta in H. destruct H as (Hout & _ & Hcombo).
  specialize (Hcombo eq_refl _ _ _ _ eq_refl eq_refl eq_refl eq_refl
                ltac:(discriminate)).
  destruct Hcombo as (_ & Htext & _ & Hidx & _ & _ & Hlog).
  repeat split; assumption.
Defined.

(** C6, as stated, fails: a new connection whose target node does not exist
    leaves the output socket with the name it had, which is not the
    placeholder. *)
Lemma onConnectionsChange_unresolved_keeps_name :
  let w := Examples.bound_world "mode" "x" in
  let li := {| target_id := 99; target_slot := 0 |} in
  getNodeById w (target_id li) = None
  /\ outputs (self (snd (onConnectionsChange Output 0 Connect (Some li) w)))
     = ["mode"]
  /\ "mode" <> _prefix.
Proof. vm_compute. repeat split. discriminate. Qed.

(** C6, amended: on a change of the links of output socket 0, a
    disconnection, or a change that carries no link, sets the name of the
    socket to the placeholder whatever it was before; a new connection whose
    resolution fails at some step (downstream node, its inputs, the target
    slot, the downstream widget) makes the handler return early and leaves
    the name, and the whole state, as it was. *)
Theorem onConnectionsChange_revert_or_keep (w : World) (name0 : string)
    (rest : list string) :
  outputs (self w) = name0 :: rest ->
  (forall li,
     onConnectionsChange Output 0 Disconnect (Some li) w
     = (Normal ReturnChained, with_self (set_outputs (_prefix :: rest)) w))
  /\ (forall event,
       onConnectionsChange Output 0 event None w
       = (Normal ReturnChained, with_self (set_outputs (_prefix :: rest)) w))
  /\ (forall li,
       resolve w li = None ->
       onConnectionsChange Output 0 Connect (Some li) w
       = (Normal ReturnEarly, w)).
Proof.
  intros Hout.
  assert (Hren := rename_output0_ok w _prefix name0 rest Hout).
  split; [|split].
  - intros li. cbn [onConnectionsChange].
    rewrite (bind_normal _ _ _ _ _ Hren). reflexivity.
  - intros event. cbn [onConnectionsChange].
    rewrite (bind_normal _ _ _ _ _ Hren). reflexivity.
  - intros li Hnone. rewrite onConnectionsChange_connect_step, Hnone.
    reflexivity.
Qed.

Lemma onConnectionsChange_revert_or_keep_witness :
  let w := Examples.bound_world "mode" "x" in
  outputs (self w) = ["mode"]
  /\ outputs (self (snd (onConnectionsChange Output 0 Disconnect
                           (Some {| target_id := 7; target_slot := 1 |}) w)))
     = [_prefix]
  /\ onConnectionsChange Output 0 Connect
       (Some {| target_id := 99; target_slot := 0 |}) w
     = (Normal ReturnEarly, w).
Proof.
  pose proof (onConnectionsChange_revert_or_keep
                (Examples.bound_world "mode" "x") "mode" [] eq_refl) as H.
  destruct H as (Hd & _ & Hu).
  split; [reflexivity|]. split.
  - rewrite Hd. reflexivity.
  - apply Hu. reflexivity.
Defined.

(** ** The menu converter *)

(** C4, as the code has it: the hook runs on a menu that holds an entry
    "Convert x to input", for a node whose widget x is declared and
    qualifies; when it returns, the caller's array still holds that entry
    and nothing more, and the conversion entry (labelled "Convsert x to
    input") lies with a separator in the array [filter] created. *)
Theorem getExtraMenuOptions_caller_menu_unchanged :
  let run := Menu.getExtraMenuOptions "converted-widget" [("x", "INT")]
               Examples.x_node (Some 0%nat) [Examples.host_menu] in
  fst run = Normal tt
  /\ Menu.offered "converted-widget" Examples.x_widget = true
  /\ snd run !! 0%nat = Some Examples.host_menu
  /\ snd run !! 1%nat
     = Some [ Some {| Menu.content := JStr "Convsert x to input";
                      Menu.callback :=
                        Some (Menu.convertToInput 9 Examples.x_widget "INT") |};
              None ].
Proof. vm_compute. repeat split. Qed.

(** C10, as the code has it: for a node definition of the pack that has no
    [input] at all the hook is installed, with nothing to offer, whereas for
    one whose [input] declares no required or optional entry the hook is
    left alone. *)
Theorem beforeRegisterNodeDef_without_input :
  Menu.beforeRegisterNodeDef {| Menu.name := _id; Menu.input := None |}
  = Menu.Installed []
  /\ Menu.beforeRegisterNodeDef
       {| Menu.name := _id;
          Menu.input := Some {| Menu.required := Some [];
                                Menu.optional := None |} |}
     = Menu.Untouched.
Proof. vm_compute. split; reflexivity. Qed.

(** * Further properties of the handlers *)

Module SessionFacts.
Import Queue QueueFacts Session.

(** ** Frames *)

Lemma preserves_pure {S A B} (obs : S -> B) (c : M S A) :
  (forall s, snd (c s) = s) -> preserves obs c.
Proof. intros H s. now rewrite H. Qed.

Lemma map_name_alter (f : Widget -> Widget) i ws :
  (forall x, w_name (f x) = w_name x) ->
  map w_name (alter f i ws) = map w_name ws.
Proof.
  intros Hf. revert i. induction ws as [|x ws IH]; intros [|i]; cbn;
    try reflexivity.
  - now rewrite Hf.
  - f_equal. apply IH.
Qed.

Lemma shape_update_widget w i f :
  (forall x, w_name (f x) = w_name x) ->
  shape (with_self (update_widget i f) w) = shape w.
Proof.
  intros Hf. unfold shape. cbn [self with_self others].
  unfold update_widget.
  cbn [set_widgets id widget_queue widget_report widgets outputs].
  destruct (widgets (self w)) as [ws|]; cbn [fmap option_fmap option_map];
    [|reflexivity].
  change (alter f i <$> Some ws) with (Some (alter f i ws)).
  cbn [fmap option_fmap option_map]. now rewrite map_name_alter.
Qed.

Lemma shape_assign_value r v : preserves shape (assign_value r v).
Proof.
  unfold assign_value. apply preserves_bind; [apply preserves_get|].
  intros w. destruct r; [destruct (deref _ _)|]; auto with frame.
  apply preserves_modify. intros s. now apply shape_update_widget.
Qed.

Lemma shape_rename_output0 nm : preserves shape (rename_output0 nm).
Proof.
  unfold rename_output0. intros w. unfold bind, get.
  destruct (outputs (self w)) as [|name0 rest] eqn:E; [reflexivity|].
  unfold modify, shape. cbn [snd self with_self others set_outputs id
    widget_queue widget_report widgets outputs]. rewrite E. reflexivity.
Qed.

Lemma shape_emit e : preserves shape (emit e).
Proof. intros w. reflexivity. Qed.

Lemma shape_update_report : preserves shape update_report.
Proof.
  unfold update_report.
  repeat (first [ apply shape_assign_value | apply shape_emit
                | apply preserves_bind; [|intros ?] | apply preserves_get ]).
Qed.

Lemma shape_update_list value : preserves shape (update_list value).
Proof.
  unfold update_list.
  repeat (first [ apply shape_update_report | apply shape_emit
                | apply preserves_bind; [|intros ?] | apply preserves_get
                | apply preserves_modify; intros ?; reflexivity ]).
Qed.

(** [onConnectOutput] only reads. *)
Lemma onConnectOutput_reads ToNumber outputIndex inputType inputSlot
    inputNode inputIndex w :
  snd (onConnectOutput ToNumber outputIndex inputType inputSlot inputNode
         inputIndex w) = w.
Proof.
  unfold onConnectOutput, bind, get, defined, ret, throw.
  repeat (match goal with
          | |- context [if ?b then _ else _] => destruct b
          | |- context [match ?o with Some _ => _ | None => _ end] =>
              destruct o
          end; cbn [snd fst]; try reflexivity).
Qed.

Lemma shape_python_queue_ping d : preserves shape (python_queue_ping d).
Proof.
  unfold python_queue_ping. apply preserves_bind; [apply preserves_get|].
  intros w. destruct (negb _); [apply preserves_ret|].
  apply preserves_bind; [|intros ?; apply shape_update_report].
  apply preserves_modify. intros ?; reflexivity.
Qed.

Lemma python_queue_done_frame d w :
  self (snd (python_queue_done d w)) = self w
  /\ others (snd (python_queue_done d w)) = others w.
Proof.
  unfold python_queue_done, bind, get.
  destruct (negb _); [split; reflexivity|].
  destruct (widget_queue (self w)); [destruct (deref _ _)|];
    split; reflexivity.
Qed.

Lemma shape_python_queue_done d : preserves shape (python_queue_done d).
Proof.
  intros w. destruct (python_queue_done_frame d w) as [Hs Ho].
  unfold shape. now rewrite Hs, Ho.
Qed.

Lemma shape_widget_queue_input L : preserves shape (widget_queue_input L).
Proof.
  unfold widget_queue_input. apply preserves_bind; [apply preserves_get|].
  intros w. apply preserves_bind; [apply preserves_defined|].
  intros q. destruct (w_value q); try apply preserves_throw.
  apply shape_update_list.
Qed.

Lemma shape_widget_reset_callback L : preserves shape (widget_reset_callback L).
Proof.
  unfold widget_reset_callback.
  repeat (first [ apply shape_assign_value | apply shape_emit
                | apply preserves_bind; [|intros ?] | apply preserves_get ]).
Qed.

Lemma shape_onConnectionsChange slotType slot event link_info :
  preserves shape (onConnectionsChange slotType slot event link_info).
Proof.
  assert (Hrev : preserves shape (rename_output0 _prefix ;; ret ReturnChained)).
  { apply preserves_bind; [apply shape_rename_output0|].
    intros ?; apply preserves_ret. }
  destruct slotType; [apply preserves_ret|].
  destruct slot; [|apply preserves_ret].
  destruct link_info as [li|]; [|exact Hrev].
  destruct event; [|exact Hrev].
  intros s. rewrite onConnectionsChange_connect_step.
  destruct (resolve s li) as [widget|]; [|reflexivity].
  revert s. apply preserves_bind; [apply shape_rename_output0|]. intros _.
  apply preserves_bind; [|intros _; apply preserves_ret].
  destruct (is_combo widget); [|apply preserves_ret].
  repeat (first [ apply shape_assign_value | apply shape_update_list
                | apply preserves_bind; [|intros ?] | apply preserves_get
                | apply preserves_defined ]).
Qed.

Lemma shape_dispatch ToNumber L e : preserves shape (dispatch ToNumber L e).
Proof.
  destruct e; cbn [dispatch].
  - destruct (l_widget_queue L); [|apply preserves_ret].
    apply preserves_bind; [apply shape_assign_value|].
    intros _. apply shape_widget_queue_input.
  - apply shape_widget_reset_callback.
  - apply shape_python_queue_ping.
  - apply shape_python_queue_done.
  - apply preserves_bind; [|intros ?; apply preserves_ret].
    apply preserves_pure. intros s. apply onConnectOutput_reads.
  - apply preserves_bind; [|intros ?; apply preserves_ret].
    apply shape_onConnectionsChange.
Qed.

Lemma run_snoc ToNumber L events e w :
  run ToNumber L (events ++ [e]) w
  = snd (dispatch ToNumber L e (run ToNumber L events w)).
Proof. unfold run. now rewrite foldl_app. Qed.

Lemma shape_run ToNumber L events w :
  shape (run ToNumber L events w) = shape w.
Proof.
  revert w. induction events as [|e events IH]; intros w; [reflexivity|].
  change (shape (run ToNumber L events (snd (dispatch ToNumber L e w)))
          = shape w).
  rewrite IH. apply shape_dispatch.
Qed.

(** ** Splitting and joining *)

Lemma split_nl_nonempty s : split_nl s <> [].
Proof.
  destruct s as [|c r]; cbn; [discriminate|].
  destruct (Ascii.eqb c "010"); [discriminate|].
  destruct (split_nl r); discriminate.
Qed.

Lemma length_split_nl s : length (split_nl s) = S (count_nl s).
Proof.
  induction s as [|c r IH]; [reflexivity|]. cbn [split_nl count_nl].
  destruct (Ascii.eqb c "010"); cbn [length]; [now rewrite IH|].
  destruct (split_nl r) as [|h t] eqn:E; [now destruct (split_nl_nonempty r)|].
  exact IH.
Qed.

Lemma join_cons_cons sep x y l :
  join sep (x :: y :: l) = x +:+ sep +:+ join sep (y :: l).
Proof. reflexivity. Qed.

Lemma join_split_nl s : join nl (split_nl s) = s.
Proof.
  induction s as [|c r IH]; [reflexivity|]. cbn [split_nl].
  destruct (Ascii.eqb_spec c "010") as [->|Hc].
  - destruct (split_nl r) as [|h t] eqn:E; [now destruct (split_nl_nonempty r)|].
    rewrite join_cons_cons, IH. reflexivity.
  - destruct (split_nl r) as [|h t] eqn:E; [now destruct (split_nl_nonempty r)|].
    destruct t as [|y t].
    + cbn in IH |- *. now rewrite IH.
    + rewrite join_cons_cons. rewrite join_cons_cons in IH.
      rewrite <- IH. reflexivity.
Qed.

Lemma split_nl_newline_free x :
  newline_free x = true -> split_nl x = [x].
Proof.
  unfold newline_free. induction x as [|c r IH]; [reflexivity|].
  cbn [count_nl split_nl]. destruct (Ascii.eqb c "010"); [discriminate|].
  cbn [Nat.add]. intros H. now rewrite (IH H).
Qed.

Lemma split_nl_app x rest :
  newline_free x = true ->
  split_nl (x +:+ nl +:+ rest) = x :: split_nl rest.
Proof.
  unfold newline_free. induction x as [|c r IH]; [reflexivity|].
  cbn [count_nl]. intros H.
  change (String c r +:+ nl +:+ rest) with (String c (r +:+ nl +:+ rest)).
  cbn [split_nl]. destruct (Ascii.eqb c "010"); [discriminate|].
  cbn [Nat.add] in H. now rewrite (IH H).
Qed.

Lemma split_nl_join l :
  l <> [] -> forallb newline_free l = true -> split_nl (join nl l) = l.
Proof.
  induction l as [|x l IH]; [congruence|]. intros _ H.
  cbn [forallb] in H. apply andb_prop in H as [Hx Hl].
  destruct l as [|y l].
  - cbn. now apply split_nl_newline_free.
  - rewrite join_cons_cons, split_nl_app by exact Hx.
    f_equal. apply IH; [discriminate | exact Hl].
Qed.

(** ** Finding a widget by its name *)


Lemma find_widget_None nm ws :
  find_widget nm ws = None <-> (forall x, x ∈ ws -> w_name x <> nm).
Proof.
  induction ws as [|x ws IH]; cbn [find_widget].
  - split; [intros _ y Hy; inversion Hy | reflexivity].
  - destruct (String.eqb_spec (w_name x) nm) as [He|Hne].
    + split; [discriminate|]. intros H. destruct (H x); [left | exact He].
    + destruct (find_widget nm ws) as [k|].
      * split; [discriminate|]. intros H.
        destruct IH as [_ IH]. discriminate IH.
        intros y Hy. apply H. now right.
      * split; [|reflexivity]. intros _ y Hy.
        destruct IH as [IH _]. apply elem_of_cons in Hy as [->|Hy];
          [exact Hne | now apply IH].
Qed.

Lemma find_named_find_widget nm ws :
  find_named nm ws = find_widget nm ws ≫= (ws !!.).
Proof.
  unfold find_named. induction ws as [|x ws IH]; [reflexivity|].
  cbn [List.find find_widget].
  destruct (String.eqb (w_name x) nm); [reflexivity|].
  rewrite IH. now destruct (find_widget nm ws).
Qed.

(** ** Overwriting a widget *)

Lemma update_widget_twice i f g n :
  update_widget i f (update_widget i g n) = update_widget i (f ∘ g) n.
Proof.
  unfold update_widget. destruct n as [k ins outs [ws|] di dc da dn wq wr];
    cbn; [|reflexivity].
  now rewrite list_alter_alter_eq.
Qed.

Lemma update_widget_ext i f g n :
  (forall x, f x = g x) -> update_widget i f n = update_widget i g n.
Proof.
  intros H. unfold update_widget.
  destruct n as [k ins outs [ws|] di dc da dn wq wr]; cbn; [|reflexivity].
  do 2 f_equal. now apply list_alter_ext.
Qed.

(** ** The list edit, step by step *)

Lemma list_edited_ok ToNumber L w iq q ir rw text :
  l_widget_queue L = Some iq ->
  deref (self w) (Some iq) = Some q ->
  widget_report (self w) = Some ir ->
  deref (self w) (Some ir) = Some rw ->
  ir <> iq ->
  dispatch ToNumber L (ListEdited text) w
  = (Normal tt,
     {| self := update_widget ir
                  (set_w_value (JStr (render 1 (length (data_all (self w))) "")))
                  (set_data 1 "" (data_all (self w))
                     (set_data_count (length (split_nl text))
                        (update_widget iq (set_w_value (JStr text)) (self w))));
        others := others w;
        log := log w ++ [SetDirty; ApiCmd (id (self w)) "reset"] |}).
Proof.
  intros HL Hq Hr Hrw Hne. cbn [dispatch]. rewrite HL.
  rewrite (bind_normal _ _ _ _ _ (assign_value_ok w iq q _ Hq)).
  unfold widget_queue_input. unfold bind at 1, get at 1.
  rewrite HL. cbn [self with_self].
  rewrite (deref_update_widget_eq _ iq _ q Hq).
  unfold bind at 1, defined at 1, ret at 1. cbn [w_value set_w_value].
  rewrite (update_list_ok _ _ ir rw); [reflexivity | exact Hr |].
  cbn [self with_self]. rewrite deref_update_widget_ne by congruence.
  exact Hrw.
Qed.

Lemma set_data_update_widget i c l r f n :
  set_data i c l (update_widget r f n) = update_widget r f (set_data i c l n).
Proof. reflexivity. Qed.

Lemma set_data_twice i c l i' c' l' n :
  set_data i c l (set_data i' c' l' n) = set_data i c l n.
Proof. reflexivity. Qed.

Lemma report_ready_shape w w' :
  shape w = shape w' -> report_ready w -> report_ready w'.
Proof.
  unfold shape, report_ready, deref. intros H.
  injection H as _ _ Hr _ Hn _. rewrite <- Hr.
  destruct (widget_report (self w)) as [r|]; [|intros []; discriminate].
  destruct (widgets (self w)) as [ws|], (widgets (self w')) as [ws'|];
    cbn in Hn; try discriminate; [|intros []; discriminate].
  injection Hn as Hn. intros Hs.
  apply lookup_lt_is_Some in Hs. apply lookup_lt_is_Some.
  rewrite <- (length_map w_name ws'), <- Hn, length_map. exact Hs.
Qed.

End SessionFacts.

Import Session SessionFacts.

(** ** Worker events *)

(** X1: worker events addressed to other nodes, however many and in whatever
    order, leave the node, the graph and the effects exactly as they were,
    and none of them raises, whether or not the node's widget references
    are set. *)
Theorem foreign_events_ignored (ToNumber : string -> option Z) (L : Locals)
    (events : list Event) (w : World) :
  Forall (foreign w) events ->
  run ToNumber L events w = w
  /\ Forall (fun e => fst (dispatch ToNumber L e w) = Normal tt) events.
Proof.
  induction 1 as [|e events He _ [IHrun IHok]]; [split; [reflexivity|constructor]|].
  assert (Hstep : dispatch ToNumber L e w = (Normal tt, w)).
  { destruct e as [| |d|d| |]; try contradiction; cbn in He;
      apply Z.eqb_neq in He; cbn [dispatch];
      unfold python_queue_ping, python_queue_done, bind, get;
      rewrite He; reflexivity. }
  split.
  - change (run ToNumber L events (snd (dispatch ToNumber L e w)) = w).
    rewrite Hstep. exact IHrun.
  - constructor; [now rewrite Hstep | exact IHok].
Qed.

Lemma foreign_events_ignored_witness :
  let w := Examples.created_world in
  let events := [Ping (Examples.ping 5 9 ["z"] "z"); Done (Examples.ping 6 0 [] "")] in
  Forall (foreign w) events
  /\ run Examples.ToNumber_decimal Examples.host_locals events w = w.
Proof.
  assert (H : Forall (foreign Examples.created_world)
                [Ping (Examples.ping 5 9 ["z"] "z");
                 Done (Examples.ping 6 0 [] "")]).
  { repeat constructor; cbn; discriminate. }
  split; [exact H|].
  apply (foreign_events_ignored Examples.ToNumber_decimal Examples.host_locals
           _ Examples.created_world H).
Defined.

(** X2: the done event never changes the node or the graph, raised or not;
    when it completes for the node's own id, its single effect is the flash
    of the widget [this.widget_queue] refers to. *)
Theorem python_queue_done_only_flashes (d : Detail) (w : World) :
  let w' := snd (python_queue_done d w) in
  self w' = self w
  /\ others w' = others w
  /\ (detail_id d = id (self w) ->
      fst (python_queue_done d w) = Normal tt ->
      exists i, widget_queue (self w) = Some i
                /\ is_Some (deref (self w) (Some i))
                /\ log w' = (log w ++ [Flash i])%list)
  /\ (fst (python_queue_done d w) = TypeError -> log w' = log w).
Proof.
  cbv zeta. destruct (python_queue_done_frame d w) as [Hs Ho].
  split; [exact Hs|]. split; [exact Ho|].
  unfold python_queue_done, bind, get.
  destruct (Z.eqb_spec (detail_id d) (id (self w))) as [He|Hne]; cbn [negb].
  - destruct (widget_queue (self w)) as [i|] eqn:Ei.
    + destruct (deref (self w) (Some i)) as [q|] eqn:Eq.
      * split; [|discriminate]. intros _ _. exists i. eauto.
      * split; [discriminate | reflexivity].
    + split; [discriminate | reflexivity].
  - split; [contradiction | discriminate].
Qed.

(** X3: the last progress event wins: after two events for the node, the
    node is as after the second alone, whatever the first carried. *)
Theorem python_queue_ping_last_wins (w : World) (d1 d2 : Detail)
    (rw : Widget) :
  detail_id d1 = id (self w) ->
  detail_id d2 = id (self w) ->
  deref (self w) (widget_report (self w)) = Some rw ->
  self (snd (python_queue_ping d2 (snd (python_queue_ping d1 w))))
  = self (snd (python_queue_ping d2 w)).
Proof.
  intros H1 H2 Hd.
  destruct (deref_Some_ref _ _ _ Hd) as [r Hr]. rewrite Hr in Hd.
  rewrite (python_queue_ping_ok w d1 r rw H1 Hr Hd).
  rewrite (python_queue_ping_ok w d2 r rw H2 Hr Hd). cbn [snd].
  erewrite python_queue_ping_ok; cycle 1.
  - cbn [self]. exact H2.
  - cbn [self]. exact Hr.
  - cbn [self]. apply deref_update_widget_eq.
    rewrite deref_set_data. exact Hd.
  - cbn [snd self]. rewrite set_data_update_widget, set_data_twice.
    rewrite update_widget_twice. apply update_widget_ext. reflexivity.
Qed.

Lemma python_queue_ping_last_wins_witness :
  let w := Examples.created_world in
  let d1 := Examples.ping 4 7 ["x"] "x" in
  let d2 := Examples.ping 4 2 ["a"; "b"; "c"] "b" in
  detail_id d1 = id (self w)
  /\ self (snd (python_queue_ping d2 (snd (python_queue_ping d1 w))))
     = self (snd (python_queue_ping d2 w)).
Proof.
  split; [reflexivity|].
  apply (python_queue_ping_last_wins Examples.created_world
           (Examples.ping 4 7 ["x"] "x")
           (Examples.ping 4 2 ["a"; "b"; "c"] "b") report_widget);
    reflexivity.
Defined.

(** ** Editing the list, pressing reset *)

(** X4: an edit of the list widget, in any state where the list widget and
    the report widget are in place, records one more than the number of
    newlines of the text as the count (so 1 for an empty text), resets the
    cursor to 1 and the label to the empty string, leaves [data_all] and the
    socket names alone, renders the report with the length of the unchanged
    [data_all], and sends exactly one "reset" for the node's id. *)
Theorem list_edit_resets (ToNumber : string -> option Z) (L : Locals)
    (w : World) (iq : nat) (q rw : Widget) (text : string) :
  l_widget_queue L = Some iq ->
  deref (self w) (Some iq) = Some q ->
  deref (self w) (widget_report (self w)) = Some rw ->
  widget_report (self w) <> Some iq ->
  let w' := snd (dispatch ToNumber L (ListEdited text) w) in
  fst (dispatch ToNumber L (ListEdited text) w) = Normal tt
  /\ data_count (self w') = Some (S (count_nl text))
  /\ data_index (self w') = 1
  /\ data_current (self w') = ""
  /\ data_all (self w') = data_all (self w)
  /\ outputs (self w') = outputs (self w)
  /\ report_text (self w')
     = Some (JStr (render 1 (length (data_all (self w))) ""))
  /\ log w' = (log w ++ [SetDirty; ApiCmd (id (self w)) "reset"])%list.
Proof.
  intros HL Hq Hrw Hne.
  destruct (deref_Some_ref _ _ _ Hrw) as [ir Hr]. rewrite Hr in Hrw.
  assert (Hir : ir <> iq) by congruence.
  rewrite (list_edited_ok ToNumber L w iq q ir rw text HL Hq Hr Hrw Hir).
  cbn [fst snd self log].
  split; [reflexivity|]. split; [cbn; now rewrite length_split_nl|].
  do 4 (split; [reflexivity|]). split; [|reflexivity].
  unfold report_text.
  change (widget_report (update_widget ir _ _)) with (widget_report (self w)).
  rewrite Hr. erewrite deref_update_widget_eq; [reflexivity|].
  rewrite deref_set_data, deref_set_data_count.
  rewrite deref_update_widget_ne by congruence. exact Hrw.
Qed.

Lemma list_edit_resets_witness :
  let w := Examples.created_world in
  let w' := snd (dispatch Examples.ToNumber_decimal Examples.host_locals
                   (ListEdited "") w) in
  deref (self w) (widget_report (self w)) = Some report_widget
  /\ data_count (self w') = Some 1%nat
  /\ report_text (self w') = Some (JStr ("[1 / 0]" +:+ nl)).
Proof.
  pose proof (list_edit_resets Examples.ToNumber_decimal Examples.host_locals
                Examples.created_world 0
                (Examples.plain_widget "Q" "customtext" (JStr ""))
                report_widget "" eq_refl eq_refl eq_refl
                ltac:(discriminate)) as H.
  cbv zeta in H. destruct H as (_ & Hc & _ & _ & _ & _ & Hrep & _).
  split; [reflexivity|]. split; [exact Hc | exact Hrep].
Defined.

(** X5: a progress event followed by an edit of the list: the cursor and the
    label are reset, but [data_all] is still the list of the event, and the
    report shows 1 against the length of that list, not against the number
    of lines of the edited text. *)
Theorem list_edit_after_ping (ToNumber : string -> option Z) (L : Locals)
    (w : World) (d : Detail) (iq : nat) (q rw : Widget) (text : string) :
  detail_id d = id (self w) ->
  l_widget_queue L = Some iq ->
  deref (self w) (Some iq) = Some q ->
  deref (self w) (widget_report (self w)) = Some rw ->
  widget_report (self w) <> Some iq ->
  let w' := run ToNumber L [Ping d; ListEdited text] w in
  data_all (self w') = detail_l d
  /\ data_index (self w') = 1
  /\ data_current (self w') = ""
  /\ data_count (self w') = Some (S (count_nl text))
  /\ report_text (self w')
     = Some (JStr (render 1 (length (detail_l d)) "")).
Proof.
  intros Hid HL Hq Hrw Hne. cbv zeta.
  destruct (deref_Some_ref _ _ _ Hrw) as [ir Hr]. rewrite Hr in Hrw.
  assert (Hir : ir <> iq) by congruence.
  change (run ToNumber L [Ping d; ListEdited text] w)
    with (snd (dispatch ToNumber L (ListEdited text)
                 (snd (python_queue_ping d w)))).
  rewrite (python_queue_ping_ok w d ir rw Hid Hr Hrw). cbn [snd].
  erewrite list_edited_ok with (iq := iq) (ir := ir); cycle 1.
  - exact HL.
  - cbn [self]. rewrite deref_update_widget_ne by congruence.
    rewrite deref_set_data. exact Hq.
  - cbn [self]. exact Hr.
  - cbn [self]. apply deref_update_widget_eq. rewrite deref_set_data.
    exact Hrw.
  - exact Hir.
  - cbn [snd self].
    split; [reflexivity|]. split; [reflexivity|]. split; [reflexivity|].
    split; [cbn; now rewrite length_split_nl|].
    unfold report_text.
    match goal with
    | |- context [widget_report ?n] =>
        change (widget_report n) with (widget_report (self w))
    end.
    rewrite Hr. erewrite deref_update_widget_eq; [reflexivity|].
    rewrite deref_set_data, deref_set_data_count.
    rewrite deref_update_widget_ne by congruence.
    apply deref_update_widget_eq. rewrite deref_set_data. exact Hrw.
Qed.

Lemma list_edit_after_ping_witness :
  let w := Examples.created_world in
  let w' := run Examples.ToNumber_decimal Examples.host_locals
              [Ping (Examples.ping 4 2 ["a"; "b"; "c"] "b");
               ListEdited ("x" +:+ nl +:+ "y")] w in
  detail_id (Examples.ping 4 2 ["a"; "b"; "c"] "b") = id (self w)
  /\ data_count (self w') = Some 2%nat
  /\ report_text (self w') = Some (JStr ("[1 / 3]" +:+ nl)).
Proof.
  pose proof (list_edit_after_ping Examples.ToNumber_decimal
                Examples.host_locals Examples.created_world
                (Examples.ping 4 2 ["a"; "b"; "c"] "b") 0
                (Examples.plain_widget "Q" "customtext" (JStr ""))
                report_widget ("x" +:+ nl +:+ "y")
                eq_refl eq_refl eq_refl eq_refl ltac:(discriminate)) as H.
  cbv zeta in H. destruct H as (_ & _ & _ & Hc & Hrep).
  split; [reflexivity|]. split; [exact Hc | exact Hrep].
Defined.

(** X6: pressing reset puts the value of the reset widget back to [false]
    and sends one "reset" for the node's id; the progress data and the
    socket names are untouched, and a second press changes nothing on the
    node: it only sends "reset" again. *)
Theorem widget_reset_callback_idempotent (L : Locals) (w : World) (ir : nat)
    (wr : Widget) :
  l_widget_reset L = Some ir ->
  deref (self w) (Some ir) = Some wr ->
  let once := snd (widget_reset_callback L w) in
  let twice := snd (widget_reset_callback L once) in
  fst (widget_reset_callback L w) = Normal tt
  /\ (w_value <$> deref (self once) (Some ir)) = Some (JBool false)
  /\ (data_index (self once), data_current (self once), data_all (self once),
      data_count (self once), outputs (self once))
     = (data_index (self w), data_current (self w), data_all (self w),
        data_count (self w), outputs (self w))
  /\ log once = (log w ++ [ApiCmd (id (self w)) "reset"])%list
  /\ self twice = self once
  /\ log twice = (log w ++ [ApiCmd (id (self w)) "reset";
                            ApiCmd (id (self w)) "reset"])%list.
Proof.
  intros HL Hd. cbv zeta.
  assert (Hrun : forall s x, deref (self s) (Some ir) = Some x ->
            widget_reset_callback L s
            = (Normal tt,
               {| self := update_widget ir (set_w_value (JBool false)) (self s);
                  others := others s;
                  log := log s ++ [ApiCmd (id (self s)) "reset"] |})).
  { intros s x Hx. unfold widget_reset_callback. rewrite HL.
    rewrite (bind_normal _ _ _ _ _ (assign_value_ok s ir x _ Hx)).
    reflexivity. }
  rewrite (Hrun w wr Hd). cbn [fst snd self log].
  split; [reflexivity|].
  split; [now rewrite (deref_update_widget_eq _ ir _ wr Hd)|].
  split; [reflexivity|]. split; [reflexivity|].
  erewrite Hrun; cycle 1.
  { cbn [self]. apply deref_update_widget_eq. exact Hd. }
  cbn [snd self log]. split.
  - rewrite update_widget_twice. apply update_widget_ext. reflexivity.
  - rewrite <- app_assoc. reflexivity.
Qed.

Lemma widget_reset_callback_idempotent_witness :
  let w := Examples.created_world in
  let once := snd (widget_reset_callback Examples.host_locals w) in
  deref (self w) (Some 2%nat)
  = Some (Examples.plain_widget "RESET" "toggle" (JBool false))
  /\ self (snd (widget_reset_callback Examples.host_locals once)) = self once.
Proof.
  pose proof (widget_reset_callback_idempotent Examples.host_locals
                Examples.created_world 2
                (Examples.plain_widget "RESET" "toggle" (JBool false))
                eq_refl eq_refl) as H.
  cbv zeta in H. destruct H as (_ & _ & _ & _ & Hs & _).
  split; [reflexivity | exact Hs].
Defined.

(** ** Creation *)

Module CreationFacts.
Import Queue QueueFacts Session SessionFacts.

(** [onNodeCreated], case by case. *)
Lemma onNodeCreated_run w :
  onNodeCreated w
  = match widgets (self w) with
    | Some ws =>
        if creation_ok ws then
          (Normal (found ws),
           {| self := set_widget_report (Some (length ws))
                        (set_widgets (Some (ws ++ [report_widget])%list)
                           (set_data 1 "" [] (self w)));
              others := others w;
              log := (log w ++ [Subscribe EVENT_JOVI_PING;
                                Subscribe EVENT_JOVI_DONE; Defer 10])%list |})
        else (TypeError, with_self (set_data 1 "" []) w)
    | None => (TypeError, with_self (set_data 1 "" []) w)
    end.
Proof.
  unfold onNodeCreated, emit, bind, modify, get, defined, ret, throw.
  cbn [self with_self set_data widgets].
  destruct (widgets (self w)) as [ws|] eqn:Ews; [|reflexivity].
  unfold creation_ok. rewrite find_named_find_widget.
  cbn [l_widget_queue l_widget_reset l_widget_value].
  assert (Hq : forall n, widgets n = Some ws ->
                 deref n (find_widget "Q" ws)
                 = find_widget "Q" ws ≫= (ws !!.)).
  { intros n Hn. unfold deref. rewrite Hn.
    now destruct (find_widget "Q" ws). }
  rewrite Hq by exact Ews. fold (found ws).
  destruct (find_widget "VAL" ws) as [iv|]; [|reflexivity].
  destruct (find_widget "Q" ws ≫= (ws !!.)) as [q|].
  - destruct (w_inputEl q); [|now destruct (find_widget "RESET" ws)].
    destruct (find_widget "RESET" ws) as [ir|]; [|reflexivity].
    cbn [self others log with_self].
    repeat rewrite <- app_assoc. reflexivity.
  - destruct (find_widget "RESET" ws) as [ir|]; [|reflexivity].
    cbn [self others log with_self].
    repeat rewrite <- app_assoc. reflexivity.
Qed.

End CreationFacts.

Import CreationFacts.

(** X7: [onNodeCreated] raises exactly when the node has no widget array, or
    no widget named VAL, or none named RESET, or when the first widget named
    Q has no text element; a missing Q or a missing hold widget alone does
    not make it raise. *)
Theorem onNodeCreated_raises_iff (w : World) :
  fst (onNodeCreated w) = TypeError
  <-> widgets (self w) = None
      \/ exists ws, widgets (self w) = Some ws
           /\ ((forall x, x ∈ ws -> w_name x <> "VAL")
               \/ (forall x, x ∈ ws -> w_name x <> "RESET")
               \/ exists q, find_named "Q" ws = Some q
                            /\ w_inputEl q = false).
Proof.
  assert (Hok : forall ws, creation_ok ws = false
            <-> ((forall x, x ∈ ws -> w_name x <> "VAL")
                 \/ (forall x, x ∈ ws -> w_name x <> "RESET")
                 \/ exists q, find_named "Q" ws = Some q
                              /\ w_inputEl q = false)).
  { intros ws. unfold creation_ok.
    rewrite <- (find_widget_None "VAL" ws), <- (find_widget_None "RESET" ws).
    destruct (find_widget "VAL" ws) as [iv|]; [|now split; [left|]].
    destruct (find_named "Q" ws) as [q|].
    - destruct (find_widget "RESET" ws) as [ir|];
        [|now split; [right; left|]].
      destruct (w_inputEl q) eqn:Eq.
      + split; [discriminate|].
        intros [H|[H|(q' & [= <-] & H)]]; congruence.
      + split; [|reflexivity]. intros _. right. right. eauto.
    - destruct (find_widget "RESET" ws) as [ir|].
      + split; [discriminate|]. intros [H|[H|(q' & H & _)]]; congruence.
      + now split; [right; left|]. }
  rewrite onNodeCreated_run.
  destruct (widgets (self w)) as [ws|]; [|split; [now left | reflexivity]].
  destruct (creation_ok ws) eqn:E; cbn [fst].
  - split; [discriminate|].
    intros [H|(ws' & [= <-] & H)]; [discriminate|].
    apply Hok in H. congruence.
  - split; [|reflexivity]. intros _. right. exists ws.
    split; [reflexivity|]. now apply Hok.
Qed.

(** X8: [onNodeCreated] resets the cursor to 1, the label to the empty
    string and [data_all] to the empty list before any lookup, so also when
    it raises; it never touches the id, the inputs, the sockets, the
    property [widget_queue] or the other nodes.  When it raises, the node
    has the widgets it had, none added or removed and each with its name,
    type, value, options and visibility, and [widget_report] is what it
    was: the report widget is created only after the last point that can
    raise.  When it completes, exactly one widget, the report with an empty
    text, is appended after the existing ones, which keep their positions,
    and [widget_report] refers to it.  (Which callbacks and listeners are in
    place is not part of the statement.) *)
Theorem onNodeCreated_node_state (w : World) :
  let w' := snd (onNodeCreated w) in
  (data_index (self w'), data_current (self w'), data_all (self w'))
  = (1, "", [])
  /\ (id (self w'), inputs (self w'), outputs (self w'),
      widget_queue (self w'), others w')
     = (id (self w), inputs (self w), outputs (self w),
        widget_queue (self w), others w)
  /\ (fst (onNodeCreated w) = TypeError ->
      widgets (self w') = widgets (self w)
      /\ widget_report (self w') = widget_report (self w))
  /\ (forall L, fst (onNodeCreated w) = Normal L ->
      exists ws, widgets (self w) = Some ws
        /\ widgets (self w') = Some (ws ++ [report_widget])%list
        /\ (forall i x, ws !! i = Some x ->
               deref (self w') (Some i) = Some x)
        /\ widget_report (self w') = Some (length ws)
        /\ report_text (self w') = Some (JStr "")).
Proof.
  cbv zeta. rewrite onNodeCreated_run.
  destruct (widgets (self w)) as [ws|] eqn:Ews.
  - destruct (creation_ok ws); cbn [fst snd self others log with_self].
    + split; [reflexivity|]. split; [reflexivity|]. split; [discriminate|].
      intros L _. exists ws. split; [reflexivity|].
      split; [reflexivity|]. split.
      { intros i x Hx. unfold deref.
        cbn [widgets set_widget_report set_widgets].
        rewrite lookup_app_l by (eapply lookup_lt_Some; eauto). exact Hx. }
      split; [reflexivity|].
      unfold report_text, deref.
      cbn [widget_report widgets set_widget_report set_widgets].
      now rewrite list_lookup_middle.
    + split; [reflexivity|]. split; [reflexivity|].
      split; [|discriminate]. intros _. cbn. now rewrite Ews.
  - cbn [fst snd self others log with_self].
    split; [reflexivity|]. split; [reflexivity|].
    split; [|discriminate]. intros _. cbn. now rewrite Ews.
Qed.



(** ** Any sequence of events *)

Module TameFacts.
Import Queue QueueFacts Session SessionFacts.

Lemma tame_refl w : tame w w.
Proof. unfold tame. auto. Qed.

Lemma tame_trans w1 w2 w3 : tame w1 w2 -> tame w2 w3 -> tame w1 w3.
Proof.
  unfold tame. intros (Hi & Ha & Hx & Hc) (Hi' & Ha' & Hx' & Hc').
  split; [congruence|]. split; [congruence|].
  split; [destruct Hx, Hx'; (left; congruence) || (right; congruence)|].
  destruct Hc, Hc'; (left; congruence) || (right; congruence).
Qed.

Lemma tame_same_self w w' : self w' = self w -> tame w w'.
Proof. intros H. unfold tame. rewrite H. auto. Qed.

Lemma keeps_tame_bind {A B} (c : M World A) (k : A -> M World B) :
  keeps_tame c -> (forall a, keeps_tame (k a)) -> keeps_tame (bind c k).
Proof.
  intros Hc Hk s. unfold bind. specialize (Hc s).
  destruct (c s) as [[a|] s']; cbn [snd] in *; [|exact Hc].
  eapply tame_trans; [exact Hc | apply Hk].
Qed.

Lemma keeps_tame_pure {A} (c : M World A) :
  (forall s, snd (c s) = s) -> keeps_tame c.
Proof. intros H s. rewrite H. apply tame_refl. Qed.

Lemma keeps_tame_modify (f : World -> World) :
  (forall s, tame s (f s)) -> keeps_tame (modify f).
Proof. intros H s. apply H. Qed.

Lemma keeps_tame_assign_value r v : keeps_tame (assign_value r v).
Proof.
  unfold assign_value. apply keeps_tame_bind; [now apply keeps_tame_pure|].
  intros w. destruct r; [destruct (deref _ _)|]; try now apply keeps_tame_pure.
  apply keeps_tame_modify. intros s. unfold tame. cbn. auto.
Qed.

Lemma keeps_tame_emit e : keeps_tame (emit e).
Proof. intros s. now apply tame_same_self. Qed.

Lemma keeps_tame_update_list value : keeps_tame (update_list value).
Proof.
  unfold update_list, update_report.
  repeat (first [ apply keeps_tame_assign_value | apply keeps_tame_emit
                | apply keeps_tame_bind; [|intros ?]
                | apply keeps_tame_pure; reflexivity
                | apply keeps_tame_modify; intros ?; unfold tame; cbn; auto ]).
Qed.

Lemma keeps_tame_rename_output0 nm : keeps_tame (rename_output0 nm).
Proof.
  unfold rename_output0. apply keeps_tame_bind; [now apply keeps_tame_pure|].
  intros w. destruct (outputs (self w)) as [|name0 rest];
    [now apply keeps_tame_pure|].
  apply keeps_tame_modify. intros s0. unfold tame. cbn. auto.
Qed.

Lemma keeps_tame_onConnectionsChange slotType slot event link_info :
  keeps_tame (onConnectionsChange slotType slot event link_info).
Proof.
  assert (Hrev : keeps_tame (rename_output0 _prefix ;; ret ReturnChained)).
  { apply keeps_tame_bind; [apply keeps_tame_rename_output0|].
    intros ?. now apply keeps_tame_pure. }
  destruct slotType; [now apply keeps_tame_pure|].
  destruct slot; [|now apply keeps_tame_pure].
  destruct link_info as [li|]; [|exact Hrev].
  destruct event; [|exact Hrev].
  intros s. rewrite onConnectionsChange_connect_step.
  destruct (resolve s li) as [widget|]; [|apply tame_refl].
  revert s. apply keeps_tame_bind; [apply keeps_tame_rename_output0|].
  intros _. apply keeps_tame_bind; [|intros _; now apply keeps_tame_pure].
  destruct (is_combo widget); [|now apply keeps_tame_pure].
  repeat (first [ apply keeps_tame_assign_value | apply keeps_tame_update_list
                | apply keeps_tame_bind; [|intros ?]
                | apply keeps_tame_pure; intros ?; reflexivity
                | apply keeps_tame_pure; intros ?;
                  match goal with |- snd (defined ?o _) = _ => now destruct o end ]).
Qed.

Lemma tame_dispatch ToNumber L e w :
  not_own_ping w e -> tame w (snd (dispatch ToNumber L e w)).
Proof.
  destruct e as [text| |d|d|oi it sl n ii|st sl ev li]; cbn [dispatch not_own_ping];
    intros He.
  - destruct (l_widget_queue L); [|apply tame_refl].
    revert w. apply keeps_tame_bind; [apply keeps_tame_assign_value|].
    intros _. unfold widget_queue_input.
    apply keeps_tame_bind; [now apply keeps_tame_pure|]. intros w.
    apply keeps_tame_bind;
      [apply keeps_tame_pure; intros ?;
       match goal with |- snd (defined ?o _) = _ => now destruct o end|].
    intros q. destruct (w_value q); try now apply keeps_tame_pure.
    apply keeps_tame_update_list.
  - revert w. unfold widget_reset_callback.
    repeat (first [ apply keeps_tame_assign_value | apply keeps_tame_emit
                  | apply keeps_tame_bind; [|intros ?]
                  | apply keeps_tame_pure; reflexivity ]).
  - unfold python_queue_ping, bind, get. apply Z.eqb_neq in He.
    rewrite He. apply tame_refl.
  - apply tame_same_self. apply python_queue_done_frame.
  - unfold bind. pose proof (onConnectOutput_reads ToNumber oi it sl n ii w) as H.
    destruct (onConnectOutput ToNumber oi it sl n ii w) as [[r|] s'];
      cbn [snd] in *; subst s'; apply tame_refl.
  - revert w. apply keeps_tame_bind; [apply keeps_tame_onConnectionsChange|].
    intros ?. now apply keeps_tame_pure.
Qed.

(** What makes [onConnectOutput] return [false]. *)
Lemma onConnectOutput_rejects_only ToNumber outputIndex inputType inputSlot
    inputNode inputIndex w :
  fst (onConnectOutput ToNumber outputIndex inputType inputSlot inputNode
         inputIndex w) = Normal ReturnFalse ->
  outputIndex = 0%nat /\ inputType = "COMBO"
  /\ (exists name0, head (outputs (self w)) = Some name0 /\ name0 <> _prefix)
  /\ (exists q wd o vs,
        deref (self w) (widget_queue (self w)) = Some q
        /\ widgets inputNode ≫= find_named inputSlot = Some wd
        /\ w_options wd = Some o /\ values o = Some vs
        /\ loose_eq ToNumber (w_value q) (JStr (join nl vs)) = false).
Proof.
  unfold onConnectOutput, bind, get, defined, ret, throw.
  destruct (Nat.eqb_spec outputIndex 0) as [->|]; [|discriminate].
  destruct (String.eqb_spec inputType "COMBO") as [->|]; [|discriminate].
  destruct (widgets inputNode) as [ws|]; [|discriminate].
  destruct (head (outputs (self w))) as [name0|]; [|discriminate].
  destruct (String.eqb_spec name0 _prefix) as [|Hne]; [discriminate|].
  cbn [negb].
  destruct (deref (self w) (widget_queue (self w))) as [q|]; [|discriminate].
  destruct (find_named inputSlot ws) as [wd|] eqn:Ef; [|discriminate].
  destruct (w_options wd) as [o|] eqn:Eo; [|discriminate].
  destruct (values o) as [vs|] eqn:Ev; [|discriminate].
  destruct (loose_eq ToNumber (w_value q) (JStr (join nl vs))) eqn:El;
    [discriminate|].
  intros _. split; [reflexivity|]. split; [reflexivity|].
  split; [eauto|]. exists q, wd, o, vs. cbn. rewrite Ef. auto.
Qed.

End TameFacts.

Import TameFacts.

(** X10: whatever events a created node handles, in whatever order and
    whether or not some of them raise, its id, its [widget_queue] and
    [widget_report] references, the other nodes of the graph, the names of
    its widgets in their order and the number of its output sockets stay as
    they were; in particular the report widget, once there, remains. *)
Theorem session_keeps_wiring (ToNumber : string -> option Z) (L : Locals)
    (events : list Event) (w : World) :
  let w' := run ToNumber L events w in
  (id (self w'), widget_queue (self w'), widget_report (self w'), others w',
   map w_name <$> widgets (self w'), length (outputs (self w')))
  = (id (self w), widget_queue (self w), widget_report (self w), others w,
     map w_name <$> widgets (self w), length (outputs (self w)))
  /\ (report_ready w -> report_ready w').
Proof.
  cbv zeta. pose proof (shape_run ToNumber L events w) as H.
  split; [exact H|]. apply report_ready_shape. symmetry. exact H.
Qed.

(** X11: [queue.js] never assigns [this.widget_queue].  On a node created
    without that property, the done event for the node's own id raises
    after every history of events, and leaves the state as it found it. *)
Theorem python_queue_done_always_raises (ToNumber : string -> option Z)
    (w0 w : World) (L : Locals) (events : list Event) (d : Detail) :
  onNodeCreated w0 = (Normal L, w) ->
  widget_queue (self w0) = None ->
  detail_id d = id (self w0) ->
  python_queue_done d (run ToNumber L events w)
  = (TypeError, run ToNumber L events w).
Proof.
  intros Hc Hq Hd.
  pose proof (shape_run ToNumber L events w) as Hs. unfold shape in Hs.
  injection Hs as Hid Hwq _ _ _ _.
  rewrite onNodeCreated_run in Hc.
  destruct (widgets (self w0)) as [ws|]; [|discriminate].
  destruct (creation_ok ws); [|discriminate].
  injection Hc as _ <-. cbn in Hid, Hwq.
  unfold python_queue_done, bind, get.
  rewrite Hid, Hd, Z.eqb_refl, Hwq, Hq. reflexivity.
Qed.

Lemma python_queue_done_always_raises_witness :
  let events := [Ping (Examples.ping 4 2 ["a"; "b"; "c"] "b");
                 ListEdited "x"; ResetClicked] in
  widget_queue (self Examples.host_world) = None
  /\ fst (python_queue_done (Examples.ping 4 0 [] "")
            (run Examples.ToNumber_decimal Examples.host_locals events
               Examples.created_world)) = TypeError.
Proof.
  split; [reflexivity|].
  rewrite (python_queue_done_always_raises Examples.ToNumber_decimal
             Examples.host_world Examples.created_world Examples.host_locals
             _ (Examples.ping 4 0 [] "") eq_refl eq_refl eq_refl).
  reflexivity.
Defined.

(** X12: on a node created without [this.widget_queue], the gate never
    returns [false], after any history of events and for any arguments: it
    passes the decision on or it raises. *)
Theorem onConnectOutput_never_rejects (ToNumber : string -> option Z)
    (w0 w : World) (L : Locals) (events : list Event)
    (outputIndex : nat) (inputType inputSlot : string) (inputNode : Node)
    (inputIndex : nat) :
  onNodeCreated w0 = (Normal L, w) ->
  widget_queue (self w0) = None ->
  let r := fst (onConnectOutput ToNumber outputIndex inputType inputSlot
                  inputNode inputIndex (run ToNumber L events w)) in
  r = Normal ReturnChained \/ r = TypeError.
Proof.
  intros Hc Hq. cbv zeta.
  pose proof (shape_run ToNumber L events w) as Hs. unfold shape in Hs.
  injection Hs as _ Hwq _ _ _ _.
  rewrite onNodeCreated_run in Hc.
  destruct (widgets (self w0)) as [ws|]; [|discriminate].
  destruct (creation_ok ws); [|discriminate].
  injection Hc as _ <-. cbn in Hwq. rewrite Hq in Hwq.
  destruct (fst (onConnectOutput ToNumber outputIndex inputType inputSlot
                   inputNode inputIndex _)) as [[| |]|] eqn:E; auto.
  - apply onConnectOutput_rejects_only in E
      as (_ & _ & _ & (q & wd & o & vs & Hd & _)).
    rewrite Hwq in Hd. discriminate.
  - exfalso. revert E.
    unfold onConnectOutput, bind, get, defined, ret, throw.
    repeat (match goal with
            | |- context [if ?b then _ else _] => destruct b
            | |- context [match ?o with Some _ => _ | None => _ end] =>
                destruct o
            end; cbn [snd fst]; try discriminate).
Qed.

Lemma onConnectOutput_never_rejects_witness :
  let events := [LinksChanged Output 0 Connect
                   (Some {| target_id := 7; target_slot := 0 |})] in
  let w := run Examples.ToNumber_decimal Examples.host_locals events
             Examples.created_world in
  outputs (self w) = ["seed"]
  /\ fst (onConnectOutput Examples.ToNumber_decimal 0 "COMBO" "mode"
            Examples.sampler 1 w) = TypeError.
Proof.
  split; [reflexivity|].
  destruct (onConnectOutput_never_rejects Examples.ToNumber_decimal
              Examples.host_world Examples.created_world Examples.host_locals
              [LinksChanged Output 0 Connect
                 (Some {| target_id := 7; target_slot := 0 |})]
              0 "COMBO" "mode" Examples.sampler 1 eq_refl eq_refl)
    as [H|H]; [discriminate H | exact H].
Defined.

(** X13: only a progress event for the node can advance the cursor or
    change [data_all]: through any sequence of other events (edits, resets,
    done events, events of other nodes, link attempts and link changes),
    [data_all] stays what it was, the cursor stays where it was or is back
    at 1, and the label is unchanged or empty. *)
Theorem only_ping_moves_cursor (ToNumber : string -> option Z) (L : Locals)
    (events : list Event) (w : World) :
  Forall (not_own_ping w) events ->
  let w' := run ToNumber L events w in
  data_all (self w') = data_all (self w)
  /\ (data_index (self w') = data_index (self w) \/ data_index (self w') = 1)
  /\ (data_current (self w') = data_current (self w)
      \/ data_current (self w') = "").
Proof.
  intros H. cbv zeta.
  enough (Ht : tame w (run ToNumber L events w)) by (destruct Ht as (_ & Ht); exact Ht).
  revert w H. induction events as [|e events IH]; intros w H;
    [apply tame_refl|].
  inversion H as [|? ? He Hrest]; subst.
  change (tame w (run ToNumber L events (snd (dispatch ToNumber L e w)))).
  pose proof (tame_dispatch ToNumber L e w He) as Hstep.
  eapply tame_trans; [exact Hstep|]. apply IH.
  destruct Hstep as (Hid & _).
  eapply Forall_impl; [exact Hrest|].
  intros [] Hx; cbn in Hx |- *; try exact I. now rewrite Hid.
Qed.

Lemma only_ping_moves_cursor_witness :
  let w := snd (python_queue_ping (Examples.ping 4 2 ["a"; "b"; "c"] "b")
                  Examples.created_world) in
  let events := [ListEdited "x"; Done (Examples.ping 4 0 [] "");
                 Ping (Examples.ping 5 9 [] "z"); ResetClicked] in
  Forall (not_own_ping w) events
  /\ data_all (self (run Examples.ToNumber_decimal Examples.host_locals
                       events w)) = ["a"; "b"; "c"].
Proof.
  assert (H : Forall (not_own_ping
                 (snd (python_queue_ping
                         (Examples.ping 4 2 ["a"; "b"; "c"] "b")
                         Examples.created_world)))
                [ListEdited "x"; Done (Examples.ping 4 0 [] "");
                 Ping (Examples.ping 5 9 [] "z"); ResetClicked]).
  { repeat constructor. cbn. discriminate. }
  split; [exact H|].
  destruct (only_ping_moves_cursor Examples.ToNumber_decimal
              Examples.host_locals _ _ H) as (Ha & _).
  rewrite Ha. reflexivity.
Defined.

(** ** Links *)

Module LinkFacts.
Import Queue QueueFacts Session SessionFacts.

Lemma preserves_compose {S A B C} (obs : S -> B) (f : B -> C) (c : M S A) :
  preserves obs c -> preserves (fun s => f (obs s)) c.
Proof. intros H s. now rewrite H. Qed.

Lemma rename_output0_tail nm :
  preserves (fun w => tail (outputs (self w))) (rename_output0 nm).
Proof.
  intros w. unfold rename_output0, bind, get.
  destruct (outputs (self w)) as [|name0 rest] eqn:E; cbn; rewrite ?E;
    reflexivity.
Qed.

(** What the three writers of [onConnectionsChange] leave alone, the
    handler leaves alone. *)
Lemma onConnectionsChange_preserves {B} (obs : World -> B)
    slotType slot event link_info :
  (forall nm, preserves obs (rename_output0 nm)) ->
  (forall r v, preserves obs (assign_value r v)) ->
  (forall value, preserves obs (update_list value)) ->
  preserves obs (onConnectionsChange slotType slot event link_info).
Proof.
  intros Hren Hassign Hlist.
  assert (Hrev : preserves obs (rename_output0 _prefix ;; ret ReturnChained)).
  { apply preserves_bind; [apply Hren|]. intros ?; apply preserves_ret. }
  destruct slotType; [apply preserves_ret|].
  destruct slot; [|apply preserves_ret].
  destruct link_info as [li|]; [|exact Hrev].
  destruct event; [|exact Hrev].
  intros s. rewrite onConnectionsChange_connect_step.
  destruct (resolve s li) as [widget|]; [|reflexivity].
  generalize s. clear s.
  change (preserves obs
            (rename_output0 (w_name widget) ;;
             (if is_combo widget then
                let* o := defined (w_options widget) in
                let* vs := defined (values o) in
                let* w1 := get in
                assign_value (widget_queue (self w1)) (JStr (join nl vs)) ;;
                update_list vs
              else ret tt) ;;
             ret ReturnChained)).
  apply preserves_bind; [apply Hren|]. intros _.
  apply preserves_bind; [|intros _; apply preserves_ret].
  destruct (is_combo widget); [|apply preserves_ret].
  repeat (first [ apply Hassign | apply Hlist
                | apply preserves_bind; [|intros ?] | apply preserves_get
                | apply preserves_defined ]).
Qed.

Lemma onConnectionsChange_tail slotType slot event link_info :
  preserves (fun w => tail (outputs (self w)))
    (onConnectionsChange slotType slot event link_info).
Proof.
  apply onConnectionsChange_preserves.
  - apply rename_output0_tail.
  - intros r v.
    apply (preserves_compose (fun w => outputs (self w)) (@tail string)),
      assign_value_outputs.
  - intros value.
    apply (preserves_compose (fun w => outputs (self w)) (@tail string)),
      update_list_outputs.
Qed.

Lemma onConnectionsChange_never_false slotType slot event link_info w :
  fst (onConnectionsChange slotType slot event link_info w)
  <> Normal ReturnFalse.
Proof.
  assert (Hb : forall (c : M World unit) s,
            fst ((c ;; ret ReturnChained) s) <> Normal ReturnFalse).
  { intros c s. unfold bind, ret. destruct (c s) as [[[]|] s']; discriminate. }
  destruct slotType; [discriminate|].
  destruct slot; [|discriminate].
  destruct link_info as [li|]; [|apply Hb].
  destruct event; [|apply Hb].
  rewrite onConnectionsChange_connect_step.
  destruct (resolve w li) as [widget|]; [|discriminate].
  unfold bind at 1. destruct (rename_output0 (w_name widget) w) as [[[]|] s'];
    [apply Hb | discriminate].
Qed.

(** A link to an enumerated widget, on a node whose references are set. *)
Lemma onConnectionsChange_combo_ok w li widget name0 rest o vs iq q ir rw :
  resolve w li = Some widget ->
  outputs (self w) = name0 :: rest ->
  is_combo widget = true ->
  w_options widget = Some o ->
  values o = Some vs ->
  widget_queue (self w) = Some iq ->
  deref (self w) (Some iq) = Some q ->
  widget_report (self w) = Some ir ->
  deref (self w) (Some ir) = Some rw ->
  iq <> ir ->
  onConnectionsChange Output 0 Connect (Some li) w
  = (Normal ReturnChained,
     {| self :=
          update_widget ir
            (set_w_value (JStr (render 1 (length (data_all (self w))) "")))
            (set_data 1 "" (data_all (self w))
               (set_data_count (length vs)
                  (update_widget iq (set_w_value (JStr (join nl vs)))
                     (set_outputs (w_name widget :: rest) (self w)))));
        others := others w;
        log := log w ++ [SetDirty; ApiCmd (id (self w)) "reset"] |}).
Proof.
  intros Hres Hout Hc Ho Hvs Hiq Hq Hir Hr Hne.
  rewrite onConnectionsChange_connect_step, Hres, Hc.
  rewrite (bind_normal _ _ _ _ _
             (rename_output0_ok w (w_name widget) name0 rest Hout)).
  set (w1 := with_self (set_outputs (w_name widget :: rest)) w).
  unfold bind at 1. unfold bind at 1. rewrite Ho.
  unfold defined at 1, ret at 1.
  unfold bind at 1. rewrite Hvs. unfold defined at 1, ret at 1.
  unfold bind at 1, get at 1.
  replace (widget_queue (self w1)) with (Some iq) by (symmetry; exact Hiq).
  unfold bind at 1.
  rewrite (assign_value_ok w1 iq q) by exact Hq.
  rewrite (update_list_ok _ vs ir rw); [reflexivity | exact Hir |].
  cbn [self with_self]. rewrite deref_update_widget_ne by assumption.
  exact Hr.
Qed.

End LinkFacts.

Import LinkFacts.

(** X14: the gate only reads: whatever its arguments and its outcome, the
    node, the graph and the effects are as before.  It never returns early,
    and it returns [false] only for output index 0 and input type COMBO,
    with socket 0 renamed away from the placeholder, the list widget, the
    downstream widget and its values all present, and the list value not
    loosely equal to the joined values. *)
Theorem onConnectOutput_only_reads (ToNumber : string -> option Z)
    (outputIndex : nat) (inputType inputSlot : string) (inputNode : Node)
    (inputIndex : nat) (w : World) :
  let gate := onConnectOutput ToNumber outputIndex inputType inputSlot
                inputNode inputIndex w in
  snd gate = w
  /\ fst gate <> Normal ReturnEarly
  /\ (fst gate = Normal ReturnFalse ->
      outputIndex = 0%nat /\ inputType = "COMBO"
      /\ (exists name0, head (outputs (self w)) = Some name0
                        /\ name0 <> _prefix)
      /\ (exists q wd o vs,
            deref (self w) (widget_queue (self w)) = Some q
            /\ widgets inputNode ≫= find_named inputSlot = Some wd
            /\ w_options wd = Some o /\ values o = Some vs
            /\ loose_eq ToNumber (w_value q) (JStr (join nl vs)) = false)).
Proof.
  cbv zeta. split; [apply onConnectOutput_reads|].
  split; [|apply onConnectOutput_rejects_only].
  unfold onConnectOutput, bind, get, defined, ret, throw.
  repeat (match goal with
          | |- context [if ?b then _ else _] => destruct b
          | |- context [match ?o with Some _ => _ | None => _ end] =>
              destruct o
          end; cbn [snd fst]; try discriminate).
Qed.

(** X15: a change of links on an input slot, or on an output socket other
    than 0, changes nothing at all.  In every case the handler leaves the
    names of the sockets after the first, [data_all] and the other nodes as
    they were, and it never returns [false]. *)
Theorem onConnectionsChange_frame (slotType : TypeSlot) (slot : nat)
    (event : TypeSlotEvent) (link_info : option LinkInfo) (w : World) :
  let run := onConnectionsChange slotType slot event link_info w in
  (slotType = Input \/ slot <> 0%nat -> run = (Normal ReturnChained, w))
  /\ tail (outputs (self (snd run))) = tail (outputs (self w))
  /\ data_all (self (snd run)) = data_all (self w)
  /\ others (snd run) = others w
  /\ fst run <> Normal ReturnFalse.
Proof.
  cbv zeta. split; [|split; [|split; [|split]]].
  - intros [->|Hs]; [reflexivity|].
    destruct slotType; [reflexivity|]. destruct slot; [congruence|reflexivity].
  - apply onConnectionsChange_tail.
  - apply (keeps_tame_onConnectionsChange slotType slot event link_info w).
  - pose proof (shape_onConnectionsChange slotType slot event link_info w) as H.
    unfold shape in H. now injection H as _ _ _ Ho _ _.
  - apply onConnectionsChange_never_false.
Qed.

(** X16: the same list can be linked again.  After a link to an enumerated
    widget has loaded its values into the list widget (on a node whose list
    and report references are set), a further link attempt to a COMBO input
    whose widget has the same values is passed on, and one whose values
    join to another text is rejected, unless the first widget is itself
    named by the placeholder. *)
Theorem linked_list_gate (ToNumber : string -> option Z) (w : World)
    (li : LinkInfo) (widget : Widget) (name0 : string) (rest : list string)
    (o : WidgetOptions) (vs : list string) (q rw : Widget) :
  resolve w li = Some widget ->
  outputs (self w) = name0 :: rest ->
  is_combo widget = true ->
  w_options widget = Some o ->
  values o = Some vs ->
  deref (self w) (widget_queue (self w)) = Some q ->
  deref (self w) (widget_report (self w)) = Some rw ->
  widget_queue (self w) <> widget_report (self w) ->
  let w' := snd (onConnectionsChange Output 0 Connect (Some li) w) in
  forall inputSlot inputNode inputIndex wd o' vs',
    widgets inputNode ≫= find_named inputSlot = Some wd ->
    w_options wd = Some o' ->
    values o' = Some vs' ->
    (join nl vs' = join nl vs ->
     onConnectOutput ToNumber 0 "COMBO" inputSlot inputNode inputIndex w'
     = (Normal ReturnChained, w'))
    /\ (join nl vs' <> join nl vs -> w_name widget <> _prefix ->
        onConnectOutput ToNumber 0 "COMBO" inputSlot inputNode inputIndex w'
        = (Normal ReturnFalse, w')).
Proof.
  intros Hres Hout Hc Ho Hvs Hq Hr Hne. cbv zeta.
  destruct (deref_Some_ref _ _ _ Hq) as [iq Hiq].
  destruct (deref_Some_ref _ _ _ Hr) as [ir Hir].
  rewrite Hiq in Hq. rewrite Hir in Hr.
  assert (Hd : iq <> ir) by congruence.
  rewrite (onConnectionsChange_combo_ok w li widget name0 rest o vs iq q ir rw
             Hres Hout Hc Ho Hvs Hiq Hq Hir Hr Hd). cbn [snd].
  intros inputSlot inputNode inputIndex wd o' vs' Hwd Ho' Hvs'.
  set (w' := {| self := _; others := others w; log := _ |}).
  assert (Hlist : deref (self w') (widget_queue (self w'))
                  = Some (set_w_value (JStr (join nl vs)) q)).
  { subst w'. cbn [self].
    change (widget_queue (update_widget ir _ _)) with (widget_queue (self w)).
    rewrite Hiq, deref_update_widget_ne by congruence.
    rewrite deref_set_data, deref_set_data_count.
    apply deref_update_widget_eq. rewrite deref_set_outputs. exact Hq. }
  assert (Hrun : onConnectOutput ToNumber 0 "COMBO" inputSlot inputNode
                   inputIndex w'
                 = (Normal (if negb (String.eqb (w_name widget) _prefix)
                               && negb (String.eqb (join nl vs) (join nl vs'))
                            then ReturnFalse else ReturnChained), w')).
  { unfold onConnectOutput. cbn [Nat.eqb]. rewrite String.eqb_refl.
    unfold bind, get, defined, ret.
    destruct (widgets inputNode) as [ws|]; [|discriminate]. cbn in Hwd.
    change (head (outputs (self w'))) with (Some (w_name widget)).
    cbv beta iota.
    destruct (String.eqb (w_name widget) _prefix); cbn [negb andb];
      [reflexivity|].
    rewrite Hlist, Hwd, Ho', Hvs'. cbn [w_value set_w_value loose_eq].
    destruct (String.eqb (join nl vs) (join nl vs')); reflexivity. }
  rewrite Hrun. split.
  - intros ->. rewrite String.eqb_refl, andb_false_r. reflexivity.
  - intros Hj Hn. apply String.eqb_neq in Hn. rewrite Hn.
    assert (Hj' : String.eqb (join nl vs) (join nl vs') = false)
      by (apply String.eqb_neq; congruence).
    rewrite Hj'. reflexivity.
Qed.

Lemma linked_list_gate_witness :
  let w := Examples.bound_world _prefix "x" in
  let w' := snd (onConnectionsChange Output 0 Connect
                   (Some {| target_id := 7; target_slot := 1 |}) w) in
  resolve w {| target_id := 7; target_slot := 1 |} = Some Examples.mode_widget
  /\ onConnectOutput Examples.ToNumber_decimal 0 "COMBO" "mode"
       Examples.sampler 1 w' = (Normal ReturnChained, w').
Proof.
  split; [reflexivity|].
  pose proof (linked_list_gate Examples.ToNumber_decimal
                (Examples.bound_world _prefix "x")
                {| target_id := 7; target_slot := 1 |} Examples.mode_widget
                _prefix [] _ ["a"; "b"] _ _
                eq_refl eq_refl eq_refl eq_refl eq_refl eq_refl eq_refl
                ltac:(discriminate)) as H.
  cbv zeta in H.
  destruct (H "mode" Examples.sampler 1%nat Examples.mode_widget _ ["a"; "b"]
              eq_refl eq_refl eq_refl) as [Hsame _].
  apply Hsame. reflexivity.
Defined.

(** X17: the text of the list and the list of its lines determine each
    other: joining by newline the lines [split] gives returns the text, a
    text has one line more than it has newlines, and splitting the join of
    a non-empty list of newline-free items returns the list. *)
Theorem split_join_round_trip :
  (forall text, join nl (split_nl text) = text
                /\ length (split_nl text) = S (count_nl text))
  /\ (forall items, items <> [] -> forallb newline_free items = true ->
        split_nl (join nl items) = items).
Proof.
  split.
  - intros text. split; [apply join_split_nl | apply length_split_nl].
  - apply split_nl_join.
Qed.

(** ** The menu hook *)

Module HookFacts.
Import Menu.

Lemma prefix_spec p s : String.prefix p s = true <-> exists b, s = p +:+ b.
Proof.
  revert s. induction p as [|c p IH]; intros s.
  - split; [intros _; now exists s | now destruct s].
  - destruct s as [|c' s]; cbn [String.prefix];
      [split; [discriminate | intros [b H]; discriminate]|].
    destruct (Ascii.ascii_dec c c') as [->|Hne].
    + rewrite IH. split; intros [b H]; exists b.
      * rewrite H. reflexivity.
      * change (String c' p +:+ b) with (String c' (p +:+ b)) in H.
        now injection H.
    + split; [discriminate|]. intros [b H].
      change (String c p +:+ b) with (String c (p +:+ b)) in H. congruence.
Qed.

Lemma includes_spec p s :
  includes p s = true <-> exists a b, s = a +:+ p +:+ b.
Proof.
  induction s as [|c s IH]; cbn [includes].
  - rewrite orb_false_r, prefix_spec. split.
    + intros [b H]. now exists EmptyString, b.
    + intros (a & b & H). destruct a; [now exists b | discriminate].
  - rewrite orb_true_iff, prefix_spec, IH. split.
    + intros [[b H]|(a & b & H)].
      * now exists EmptyString, b.
      * exists (String c a), b. rewrite H. reflexivity.
    + intros (a & b & H). destruct a as [|c' a].
      * left. now exists b.
      * right. exists a, b.
        change (String c' a +:+ "(JOV)" +:+ b)
          with (String c' (a +:+ "(JOV)" +:+ b)) in H.
        change (String c' a +:+ p +:+ b)
          with (String c' (a +:+ p +:+ b)) in H.
        now injection H.
Qed.

Lemma matchingTypes_app it :
  matchingTypes it
  = (default [] (required it) ++ default [] (optional it))%list.
Proof. unfold matchingTypes. cbn. now rewrite app_nil_r. Qed.



(** The hook, on a caller's array that exists. *)
Lemma getExtraMenuOptions_run CONVERTED_TYPE mt this loc (h : Heap) a ws :
  widgets this = Some ws ->
  h !! loc = Some a ->
  getExtraMenuOptions CONVERTED_TYPE mt this (Some loc) h
  = (Normal tt,
     (h ++ [ (List.filter keep a
              ++ match convertToInputArray CONVERTED_TYPE mt this ws with
                 | [] => []
                 | arr => (Some <$> arr) ++ [None]
                 end)%list ])%list).
Proof.
  intros Hws Ha. unfold getExtraMenuOptions. rewrite Hws.
  unfold bind, get, defined, ret, alloc. rewrite Ha.
  destruct (convertToInputArray CONVERTED_TYPE mt this ws) as [|x arr];
    cbn [length Nat.eqb].
  - now rewrite app_nil_r.
  - unfold push, modify. f_equal.
    rewrite <- (Nat.add_0_r (length h)). rewrite alter_app_r. reflexivity.
Qed.

End HookFacts.

Import HookFacts.

(** X18: called with the caller's menu [a], on a node that has widgets, the
    hook completes and leaves every array that existed as it was; what it
    builds is one new array: the entries of [a] that are not labelled by a
    string starting with "Convert", in their order, followed, when there is
    something to offer, by the conversion entries and one [null]. *)
Theorem getExtraMenuOptions_builds_aside (CONVERTED_TYPE : string)
    (mt : list (string * string)) (this : Node) (loc : nat)
    (h : list (list (option Menu.MenuItem)))
    (a : list (option Menu.MenuItem)) (ws : list Widget) :
  widgets this = Some ws ->
  h !! loc = Some a ->
  let run := Menu.getExtraMenuOptions CONVERTED_TYPE mt this (Some loc) h in
  let arr := Menu.convertToInputArray CONVERTED_TYPE mt this ws in
  fst run = Normal tt
  /\ length (snd run) = S (length h)
  /\ (forall l, (l < length h)%nat -> snd run !! l = h !! l)
  /\ snd run !! length h
     = Some (List.filter Menu.keep a
             ++ (if (length arr =? 0)%nat then []
                 else (Some <$> arr) ++ [None]))%list.
Proof.
  intros Hws Ha. cbv zeta.
  rewrite (getExtraMenuOptions_run CONVERTED_TYPE mt this loc h a ws Hws Ha).
  cbn [fst snd]. split; [reflexivity|].
  split; [rewrite length_app; cbn; lia|].
  split; [intros l Hl; now apply lookup_app_l|].
  rewrite list_lookup_middle by reflexivity.
  now destruct (Menu.convertToInputArray CONVERTED_TYPE mt this ws).
Qed.

Lemma getExtraMenuOptions_builds_aside_witness :
  let run := Menu.getExtraMenuOptions "converted-widget" [("x", "INT")]
               Examples.x_node (Some 0%nat)
               [None :: Examples.host_menu] in
  [None :: Examples.host_menu] !! 0%nat = Some (None :: Examples.host_menu)
  /\ snd run !! 0%nat = Some (None :: Examples.host_menu)
  /\ length (snd run) = 2%nat.
Proof.
  pose proof (getExtraMenuOptions_builds_aside "converted-widget"
                [("x", "INT")] Examples.x_node 0
                [None :: Examples.host_menu] (None :: Examples.host_menu)
                [Examples.x_widget] eq_refl eq_refl) as H.
  cbv zeta in H. destruct H as (_ & Hlen & Hkeep & _).
  split; [reflexivity|]. split; [|exact Hlen].
  rewrite Hkeep by (cbn; lia). reflexivity.
Defined.

(** X19: the hook raises in exactly one situation: it is called without an
    options array on a node that has widgets and at least one conversion to
    offer.  Without widgets, or with nothing to offer, a missing options
    array is harmless.  When it raises it has changed nothing. *)
Theorem getExtraMenuOptions_raises_iff (CONVERTED_TYPE : string)
    (mt : list (string * string)) (this : Node) (options : option nat)
    (h : list (list (option Menu.MenuItem))) :
  match options with Some loc => (loc < length h)%nat | None => True end ->
  let run := Menu.getExtraMenuOptions CONVERTED_TYPE mt this options h in
  (fst run = TypeError
   <-> options = None
       /\ exists ws, widgets this = Some ws
            /\ Menu.convertToInputArray CONVERTED_TYPE mt this ws <> [])
  /\ (fst run = TypeError -> snd run = h).
Proof.
  intros Hloc. cbv zeta. destruct options as [loc|].
  - destruct (widgets this) as [ws|] eqn:Ews.
    + apply lookup_lt_is_Some in Hloc as [a Ha].
      rewrite (getExtraMenuOptions_run CONVERTED_TYPE mt this loc h a ws Ews Ha).
      cbn [fst]. split; [|discriminate].
      split; [discriminate | intros [H _]; discriminate].
    + unfold Menu.getExtraMenuOptions. rewrite Ews. cbn [fst ret].
      split; [|discriminate].
      split; [discriminate | intros [H _]; discriminate].
  - unfold Menu.getExtraMenuOptions.
    destruct (widgets this) as [ws|].
    + unfold bind, ret, defined, throw.
      destruct (Menu.convertToInputArray CONVERTED_TYPE mt this ws)
        as [|x arr] eqn:E; cbn [length Nat.eqb fst snd].
      * split; [|discriminate]. split; [discriminate|].
        intros (_ & ws' & [= <-] & H). congruence.
      * split; [|reflexivity]. split; [|reflexivity].
        intros _. split; [reflexivity|]. exists ws. split; [reflexivity|].
        rewrite E. discriminate.
    + cbn [fst ret]. split; [|discriminate]. split; [discriminate|].
      intros (_ & ws' & H & _). discriminate.
Qed.

Lemma getExtraMenuOptions_raises_iff_witness :
  fst (Menu.getExtraMenuOptions "converted-widget" [("x", "INT")]
         Examples.x_node None []) = TypeError.
Proof.
  apply (getExtraMenuOptions_raises_iff "converted-widget" [("x", "INT")]
           Examples.x_node None [] I).
  split; [reflexivity|]. exists [Examples.x_widget].
  split; [reflexivity | discriminate].
Defined.


(** X21: the hook is installed exactly for node definitions whose name has
    "(JOV)" somewhere in it and whose [input] is either absent, in which
    case it closes over no declaration, or declares at least one required
    or optional input, in which case it closes over the required
    declarations followed by the optional ones. *)
Theorem beforeRegisterNodeDef_installed_iff (nodeData : Menu.NodeData)
    (mt : list (string * string)) :
  Menu.beforeRegisterNodeDef nodeData = Menu.Installed mt
  <-> (exists a b, Menu.name nodeData = a +:+ "(JOV)" +:+ b)
      /\ (Menu.input nodeData = None /\ mt = []
          \/ exists inputTypes,
               Menu.input nodeData = Some inputTypes
               /\ mt = (default [] (Menu.required inputTypes)
                        ++ default [] (Menu.optional inputTypes))%list
               /\ mt <> []).
Proof.
  rewrite <- includes_spec. unfold Menu.beforeRegisterNodeDef.
  destruct (includes "(JOV)" (Menu.name nodeData)); cbn [negb].
  - destruct (Menu.input nodeData) as [it|].
    + rewrite matchingTypes_app.
      destruct (default [] (Menu.required it) ++ default [] (Menu.optional it))%list
        as [|e r] eqn:E; cbn [length Nat.eqb].
      * split; [discriminate|].
        intros (_ & [[H _]|(it' & [= <-] & -> & H)]); [discriminate|].
        rewrite E in H. congruence.
      * split.
        -- intros [= <-]. split; [reflexivity|]. right. exists it.
           rewrite E. repeat split; discriminate.
        -- intros (_ & [[H _]|(it' & [= <-] & -> & _)]); [discriminate|].
           now rewrite E.
    + split.
      * intros [= <-]. split; [reflexivity|]. now left.
      * intros (_ & [[_ ->]|(it' & H & _)]); [reflexivity | discriminate].
  - split; [discriminate | intros [H _]; discriminate].
Qed.
